(** * The resilient-fetch core of [src/modules/downloader.py]

    A shallow embedding of the [Downloader] class: the [exceptions_handler]
    decorator, [login], [get_post_content] and the constructor, over an
    explicit world (the client's in-memory settings, the session files
    written by [dump_settings], the calls issued to the outside and the
    log), with the Instagram client and the operating system as an
    arbitrary, deterministic function of the calls issued so far. The
    content files that the download strategies write stay on the outside:
    what a directory holds is what [os.listdir] answers. *)

From stdpp Require Import gmap strings list.
From Stdlib Require Import ZArith.

Open Scope string_scope.
Set Warnings "-register-all".

(** ** Python values and exceptions *)

(** The values found in the dictionaries the code reads: the metadata
    returned by [media_info(...).dict()] and the client settings. *)
Inductive pyval : Type :=
| PyNone
| PyInt (z : Z)
| PyStr (s : string)
| PyDict (d : gmap string pyval).

(** [if v:] *)
Definition truthy (v : pyval) : bool :=
  match v with
  | PyNone => false
  | PyInt z => negb (z =? 0)%Z
  | PyStr s => negb (String.eqb s "")
  | PyDict d => negb (bool_decide (d = ∅))
  end.

(** Modelled from the spec: the exception classes of the repository's
    module [.exceptions], which is not among the sources. §4.4 and §7 call
    [FailedDownloadPost] the dedicated error of the exhausted budget, and §6
    lets the constructor raise when authentication cannot be established.
    They are classes of their own: none is a subclass of a class that the
    decorator or [get_post_content] catches. *)
Inductive downloader_error : Type :=
| WrongVaultInstance
| FailedCreateDownloaderInstance
| FailedAuthInstagram
| FailedDownloadPost.

(** Each constructor stands for the instances of the class of that name.
    The first six are the classes named by the [except] clauses of
    [exceptions_handler], the next two those caught in [get_post_content];
    [OtherError] is any other exception of the client library, the vault or
    the operating system. *)
Inductive exn : Type :=
| LoginRequired
| ChallengeRequired
| PleaseWaitFewMinutes
| ReadTimeoutError
| RequestsConnectionError
| ClientRequestTimeout
| MediaUnavailable
| MediaNotFound
| DownloaderError (e : downloader_error)
| KeyError (key : string)
| TypeError
| RecursionError
| OtherError (name : string).

Coercion DownloaderError : downloader_error >-> exn.

Inductive result (A : Type) : Type :=
| Ok (a : A)
| Raise (e : exn).
Arguments Ok {A} a.
Arguments Raise {A} e.

(** ** The world *)

Inductive strategy : Type :=
| photo_download
| video_download
| clip_download
| igtv_download
| album_download.

(** [Path(f"data/{owner}")] *)
Inductive path : Type :=
| DataDir (owner : pyval).

(** The keyword arguments of [client.login]. *)
Record login_args : Type := LoginArgs {
  arg_username : string;
  arg_password : string;
  arg_verification_code : option string
}.

(** A call that leaves the process: to the client library, to the file
    system or to the clock. *)
Inductive event : Type :=
| EvSleep (seconds : Z)
| EvReadSecret (secret_path : string)
| EvNewClient
| EvConfigure (setting : string)
| EvTotpGenerateCode (seed : string)
| EvLoadSettings (file : string)
| EvGetSettings
| EvSetSettings (s : gmap string pyval)
| EvSetUuids (u : pyval)
| EvClientLogin (args : login_args)
| EvDumpSettings (file : string)
| EvGetTimelineFeed
| EvMediaPkFromCode (code : string)
| EvMediaInfo (media_pk : string)
| EvMakedirs (p : path)
| EvDownload (s : strategy) (media_pk : string) (folder : path)
| EvListdir (p : path).

Inductive level : Type := INFO | WARNING | ERROR.

(** [settings] is what [client.get_settings()] returns, [files] the session
    files by name (what [dump_settings] wrote and [load_settings] reads, and
    no other file), [trace] the calls issued so far and [log] the records
    written to the logger, both newest first. *)
Record world : Type := World {
  settings : gmap string pyval;
  files : gmap string (gmap string pyval);
  trace : list event;
  log : list (level * string)
}.

(** The configuration dictionary, for a dictionary that holds every entry
    of the constructor's docstring with a value the code accepts: the
    numeric entries are the integers [int(...)] makes of them. A dictionary
    that lacks an entry, or holds one [int] refuses, is not of this type. *)
Record configuration_dict : Type := ConfigurationDict {
  username : string;
  password : string;
  session_file : string;
  delay_requests : Z;
  two_fa_enabled : bool;
  two_fa_seed : string;
  locale : string;
  country_code : Z;
  timezone_offset : Z;
  user_agent : string;
  proxy_dsn : option string;
  request_timeout : Z
}.

(** The outside: what each call answers, given the calls issued before it
    ([trace], newest first). [client_login] also says what the client's
    settings are after the call; [dump_settings] says whether the write of
    the session file succeeds. *)
Record environment : Type := Environment {
  read_secret : list event -> string -> result configuration_dict;
  new_client : list event -> gmap string pyval;
  totp_generate_code : list event -> string -> result string;
  client_login :
    list event -> gmap string pyval -> login_args ->
    result unit * gmap string pyval;
  get_timeline_feed : list event -> result unit;
  media_pk_from_code : list event -> string -> result string;
  media_info : list event -> string -> result (gmap string pyval);
  os_makedirs : list event -> path -> result unit;
  download_into : list event -> strategy -> string -> path -> result unit;
  os_listdir : list event -> path -> result (list string);
  dump_settings : list event -> string -> result unit
}.

(** ** Computations: state and exceptions *)

Definition M (A : Type) : Type := world -> result A * world.

Definition ret {A} (a : A) : M A := fun w => (Ok a, w).

Definition raise {A} (e : exn) : M A := fun w => (Raise e, w).

Definition bind {A B} (c : M A) (k : A -> M B) : M B :=
  fun w =>
    match c w with
    | (Ok a, w1) => k a w1
    | (Raise e, w1) => (Raise e, w1)
    end.

Declare Scope py_scope.
Delimit Scope py_scope with py.
Notation "x <- c ;; k" := (bind c (fun x => k))
  (at level 100, c at next level, right associativity) : py_scope.
Notation "c ;; k" := (bind c (fun _ => k))
  (at level 100, right associativity) : py_scope.
Open Scope py_scope.

(** A computation that touches nothing: it returns or raises. *)
Definition lift {A} (r : result A) : M A := fun w => (r, w).

(** [try: body except (MediaUnavailable, MediaNotFound): handler] *)
Definition try_except_media {A} (body : M A) (handler : exn -> M A) : M A :=
  fun w =>
    match body w with
    | (Ok a, w1) => (Ok a, w1)
    | (Raise e, w1) =>
        match e with
        | MediaUnavailable | MediaNotFound => handler e w1
        | _ => (Raise e, w1)
        end
    end.

Definition record (ev : event) (w : world) : world :=
  World (settings w) (files w) (ev :: trace w) (log w).

(** Modelled from the spec: the repository's module [logger] is not among
    the sources; §1 counts log statements as plumbing. [log.info],
    [log.warning] and [log.error] append a record, the format string without
    its arguments, and do nothing else. *)
Definition logger (l : level) (msg : string) : M unit :=
  fun w => (Ok tt, World (settings w) (files w) (trace w) ((l, msg) :: log w)).

(** A call whose answer the outside decides and that changes nothing here. *)
Definition call {A} (ev : event) (answer : list event -> result A) : M A :=
  fun w => (answer (trace w), record ev w).

Definition time_sleep (seconds : Z) : M unit :=
  fun w => (Ok tt, record (EvSleep seconds) w).

(** ** The client library and the operating system

    The client is the third-party library of the imports. Its settings are
    the dictionary [get_settings] returns; [set_settings], [set_uuids],
    [load_settings] and [dump_settings] act on that dictionary and on the
    session file as their names and the docstring of [login] say; every
    other call is answered by the outside. *)

Section Downloader.

Variable env : environment.

(** [self.configuration] *)
Variable self_configuration : configuration_dict.

Definition client_totp_generate_code (seed : string) : M string :=
  call (EvTotpGenerateCode seed) (fun tr => totp_generate_code env tr seed).

(** [os.path.exists(file)] *)
Definition os_path_exists (file : string) (w : world) : bool :=
  bool_decide (is_Some (files w !! file)).

(** [client.load_settings(file)]: the settings become the content of the
    file. *)
Definition client_load_settings (file : string) : M unit :=
  fun w =>
    match files w !! file with
    | Some s => (Ok tt, World s (files w) (EvLoadSettings file :: trace w) (log w))
    | None => (Raise (OtherError "FileNotFoundError"), record (EvLoadSettings file) w)
    end.

Definition client_get_settings : M (gmap string pyval) :=
  fun w => (Ok (settings w), record EvGetSettings w).

(** [client.set_settings(s)]: the settings are replaced by [s]. *)
Definition client_set_settings (s : gmap string pyval) : M unit :=
  fun w => (Ok tt, World s (files w) (EvSetSettings s :: trace w) (log w)).

(** [client.set_uuids(u)]: only the entry ["uuids"] changes. *)
Definition client_set_uuids (u : pyval) : M unit :=
  fun w =>
    (Ok tt,
     World (<["uuids" := u]> (settings w)) (files w)
       (EvSetUuids u :: trace w) (log w)).

(** [client.login] with the keyword arguments [args]: the outside decides
    whether it raises and what the settings are afterwards. *)
Definition client_login_call (args : login_args) : M unit :=
  fun w =>
    let '(r, s) := client_login env (trace w) (settings w) args in
    (r, World s (files w) (EvClientLogin args :: trace w) (log w)).

(** [client.dump_settings(file)]: the outside decides whether the write
    succeeds. When it does, the file holds the current settings, whatever
    it held before; when it raises, nothing is written. *)
Definition client_dump_settings (file : string) : M unit :=
  fun w =>
    match dump_settings env (trace w) file with
    | Ok _ =>
        (Ok tt,
         World (settings w) (<[file := settings w]> (files w))
           (EvDumpSettings file :: trace w) (log w))
    | Raise e => (Raise e, record (EvDumpSettings file) w)
    end.

Definition client_get_timeline_feed : M unit :=
  call EvGetTimelineFeed (get_timeline_feed env).

Definition client_media_pk_from_code (code : string) : M string :=
  call (EvMediaPkFromCode code) (fun tr => media_pk_from_code env tr code).

Definition client_media_info (media_pk : string) : M (gmap string pyval) :=
  call (EvMediaInfo media_pk) (fun tr => media_info env tr media_pk).

Definition makedirs (p : path) : M unit :=
  call (EvMakedirs p) (fun tr => os_makedirs env tr p).

Definition listdir (p : path) : M (list string) :=
  call (EvListdir p) (fun tr => os_listdir env tr p).

(** [download_method(media_pk=media_pk, folder=path)]: the strategy writes
    the content files into [folder] on the outside; what the directory holds
    afterwards is what [os.listdir] answers once this call is in the trace. *)
Definition run_download (s : strategy) (media_pk : string) (folder : path) : M unit :=
  call (EvDownload s media_pk folder)
       (fun tr => download_into env tr s media_pk folder).

(** [d[k]] on a dictionary *)
Definition subscript (d : gmap string pyval) (k : string) : M pyval :=
  match d !! k with
  | Some v => ret v
  | None => raise (KeyError k)
  end.

(** [v[k]] on any value: only a dictionary can be indexed by a string key. *)
Definition subscript_value (v : pyval) (k : string) : M pyval :=
  match v with
  | PyDict d => subscript d k
  | _ => raise TypeError
  end.

(** ** The decorator *)

(** [exceptions_handler(method)], with [self.login] as [self_login] and
    the call of the decorated function on the original arguments as [method]. *)
Definition exceptions_handler {A} (self_login : string -> M string)
    (method : M A) : M A :=
  fun w =>
    match method w with
    | (Ok a, w1) => (Ok a, w1)
    | (Raise e, w1) =>
        match e with
        | LoginRequired =>
            (logger ERROR "[Downloader]: Instagram API login required. Re-authentication..." ;;
             self_login "relogin" ;;
             method) w1
        | ChallengeRequired =>
            (logger ERROR "[Downloader]: Instagram API requires challenge. Need manually pass in browser. Retry after 1 hour" ;;
             time_sleep 3600 ;;
             self_login "session" ;;
             method) w1
        | PleaseWaitFewMinutes =>
            (logger ERROR "[Downloader]: Device or IP address has been restricted. Just wait a one hour and try again" ;;
             time_sleep 3600 ;;
             self_login "relogin" ;;
             method) w1
        | ReadTimeoutError | RequestsConnectionError | ClientRequestTimeout =>
            (logger ERROR "[Downloader]: Timeout error downloading post content. Retry after 1 minute" ;;
             time_sleep 60 ;;
             method) w1
        | _ => (Raise e, w1)
        end
    end.

(** ** [login] *)

(** The dictionary [login_args]: with two-factor authentication a fresh
    code is generated and passed as [verification_code]. *)
Definition build_login_args : M login_args :=
  if two_fa_enabled self_configuration then
    totp_code <- client_totp_generate_code (two_fa_seed self_configuration) ;;
    logger INFO "[Downloader]: Two-factor authentication is enabled. TOTP code: %s" ;;
    ret (LoginArgs (username self_configuration)
                   (password self_configuration) (Some totp_code))
  else
    ret (LoginArgs (username self_configuration)
                   (password self_configuration) None).

(** The branch [elif method == 'relogin']. *)
Definition relogin (args : login_args) : M unit :=
  logger INFO "[Downloader]: Relogin to the Instagram API..." ;;
  old_session <- client_get_settings ;;
  client_set_settings ∅ ;;
  uuids <- subscript old_session "uuids" ;;
  client_set_uuids uuids ;;
  client_login_call args ;;
  client_dump_settings (session_file self_configuration).

(** The body of [login], before decoration. *)
Definition login_body (method : string) : M string :=
  logger INFO "[Downloader]: Authentication in the Instagram API with type: %s" ;;
  login_args <- build_login_args ;;
  (fun w =>
     (if String.eqb method "session"
         && os_path_exists (session_file self_configuration) w
      then
        logger INFO "[Downloader]: Loading session file with creation date %s" ;;
        client_load_settings (session_file self_configuration) ;;
        client_login_call login_args
      else if String.eqb method "relogin" then
        relogin login_args
      else
        logger INFO "[Downloader]: Creating a new session file..." ;;
        client_login_call login_args ;;
        client_dump_settings (session_file self_configuration)) w) ;;
  logger INFO "[Downloader]: Checking the status of the authentication..." ;;
  client_get_timeline_feed ;;
  logger INFO "[Downloader]: Authentication in the Instagram API was successful." ;;
  ret "logged_in".

(** [login] as the class has it, decorated: [self.login] inside the
    decorator is this same decorated method, one call deeper. [depth] is the
    room left on the interpreter's call stack. *)
Fixpoint login (depth : nat) (method : string) : M string :=
  match depth with
  | O => raise RecursionError
  | S d => exceptions_handler (login d) (login_body method)
  end.

(** ** [get_post_content] *)

(** [self.download_methods], the table built by the constructor. *)
Definition download_methods : gmap (Z * string) strategy :=
  list_to_map
    [ ((1%Z, "any"), photo_download);
      ((2%Z, "feed"), video_download);
      ((2%Z, "clips"), clip_download);
      ((2%Z, "igtv"), igtv_download);
      ((8%Z, "any"), album_download) ].

(** [self.download_methods.get(key)]: a dictionary inside the key cannot be
    hashed; a key that is not an integer with a string is in no entry. *)
Definition download_methods_get (key : pyval * pyval)
    : result (option strategy) :=
  match key with
  | (PyDict _, _) | (_, PyDict _) => Raise TypeError
  | (PyInt z, PyStr s) => Ok (download_methods !! (z, s))
  | _ => Ok None
  end.

(** [media_type in (1, 8)] *)
Definition in_1_8 (media_type : pyval) : bool :=
  match media_type with
  | PyInt z => (z =? 1)%Z || (z =? 8)%Z
  | _ => false
  end.

(** [(media_type, 'any' if media_type in (1, 8) else product_type)] *)
Definition dispatch_key (media_type product_type : pyval) : pyval * pyval :=
  (media_type, if in_1_8 media_type then PyStr "any" else product_type).

(** The dictionary [get_post_content] returns. *)
Record FetchOutcome : Type := Outcome {
  post : string;
  owner : pyval;
  type : pyval;
  status : string
}.

(** [status if status else fallback], [status] being [None] or a string. *)
Definition status_or (status : option string) (fallback : string) : string :=
  match status with
  | Some s => if String.eqb s "" then fallback else s
  | None => fallback
  end.

(** The dictionary display of both branches of [if os.listdir(path)], which
    differ in the fallback of ['status'] only. *)
Definition response (shortcode : string) (media_info : gmap string pyval)
    (status : option string) (fallback : string) : M FetchOutcome :=
  user <- subscript media_info "user" ;;
  owner <- subscript_value user "username" ;;
  product_type <- subscript media_info "product_type" ;;
  type <- (if truthy product_type
           then subscript media_info "product_type"
           else ret (PyStr "photo")) ;;
  ret (Outcome shortcode owner type (status_or status fallback)).

(** The body of [get_post_content], before decoration. *)
Definition get_post_content_body (shortcode : string) (error_count : Z)
    : M FetchOutcome :=
  if (3 <? error_count)%Z then
    logger ERROR "[Downloader]: The number of errors exceeded the limit: %s" ;;
    raise FailedDownloadPost
  else
    logger INFO "[Downloader]: Downloading the contents of the post %s..." ;;
    try_except_media
      (media_pk <- client_media_pk_from_code shortcode ;;
       media_info <- client_media_info media_pk ;;
       media_type <- subscript media_info "media_type" ;;
       let product_type := default PyNone (media_info !! "product_type") in
       let key := dispatch_key media_type product_type in
       download_method <- lift (download_methods_get key) ;;
       user <- subscript media_info "user" ;;
       owner <- subscript_value user "username" ;;
       let path := DataDir owner in
       makedirs path ;;
       let status : option string := None in
       status <-
         match download_method with
         | Some strategy =>
             run_download strategy media_pk path ;;
             ret (Some "completed")
         | None =>
             logger ERROR "[Downloader]: The media type is not supported for download: %s" ;;
             ret (Some "not_supported")
         end ;;
       listing <- listdir path ;;
       match listing with
       | _ :: _ =>
           logger INFO "[Downloader]: The contents of the post %s have been successfully downloaded" ;;
           response shortcode media_info status "completed"
       | [] =>
           logger ERROR "[Downloader]: Temporary directory is empty: %s" ;;
           response shortcode media_info status "failed"
       end)
      (fun error =>
         logger WARNING "[Downloader]: Post %s not found, perhaps it was deleted. Message will be marked as processed: %s" ;;
         ret (Outcome shortcode (PyStr "undefined") (PyStr "undefined")
                "source_not_found")).

(** [get_post_content] as the class has it, decorated. *)
Definition get_post_content (depth : nat) (shortcode : string)
    (error_count : Z) : M FetchOutcome :=
  exceptions_handler (login depth) (get_post_content_body shortcode error_count).

End Downloader.

(** ** The constructor *)

(** [Client()] *)
Definition new_Client (env : environment) : M unit :=
  fun w =>
    (Ok tt,
     World (new_client env (trace w)) (files w) (EvNewClient :: trace w) (log w)).

(** A setter of the client called while the constructor configures it, on
    an entry of a [configuration_dict]: the subscript finds the entry and
    [int(...)] accepts it, so the setter is reached; it is taken to return. *)
Definition configure (setting : string) : M unit :=
  fun w => (Ok tt, record (EvConfigure setting) w).

(** The constructor's call of [self.login()] and its check of the answer. *)
Definition authenticate (env : environment)
    (self_configuration : configuration_dict) (depth : nat) : M unit :=
  auth_status <- login env self_configuration depth "session" ;;
  if String.eqb auth_status "logged_in" then
    logger INFO "[Downloader]: Instance created successfully with account %s"
  else
    raise FailedAuthInstagram.

(** [Downloader(configuration, vault)]. [configuration] is [None] for a
    missing or empty dictionary, [vault] says whether a vault instance was
    passed. The result is [self.configuration]. The last [else] of the
    source's choice of the configuration cannot be reached and is left out. *)
Definition __init__ (env : environment) (depth : nat)
    (configuration : option configuration_dict) (vault : bool)
    : M configuration_dict :=
  if negb vault then raise WrongVaultInstance
  else
    self_configuration <-
      match configuration with
      | Some c => ret c
      | None =>
          call (EvReadSecret "configuration/downloader-api")
               (fun tr => read_secret env tr "configuration/downloader-api")
      end ;;
    logger INFO "[Downloader]: Creating a new instance..." ;;
    new_Client env ;;
    logger INFO "[Downloader]: Configuring client settings..." ;;
    configure "delay_range" ;;
    configure "request_timeout" ;;
    configure "locale" ;;
    configure "country_code" ;;
    configure "timezone_offset" ;;
    configure "user_agent" ;;
    configure "proxy" ;;
    client_get_settings ;;
    logger INFO "[Downloader]: Client settings: %s" ;;
    authenticate env self_configuration depth ;;
    ret self_configuration.

(** ** The classification table of the specification *)

(** [FailureEvent.kind] *)
Inductive FailureKind : Type :=
| KAuthExpired
| KChallengeRequired
| KRateLimited
| KTransient
| KUnclassified.

(** The column "Raised condition" of the table, first match first. *)
Definition classify (e : exn) : FailureKind :=
  match e with
  | LoginRequired => KAuthExpired
  | ChallengeRequired => KChallengeRequired
  | PleaseWaitFewMinutes => KRateLimited
  | ReadTimeoutError | RequestsConnectionError | ClientRequestTimeout => KTransient
  | _ => KUnclassified
  end.

(** The login modes of the specification as [login] spells them: [renew] is
    ['relogin'], [resume] is the default ['session']. *)
Definition renew : string := "relogin".
Definition resume : string := "session".

(** The column "Wait before retry", in seconds. *)
Definition table_wait (k : FailureKind) : option Z :=
  match k with
  | KChallengeRequired | KRateLimited => Some 3600%Z
  | KTransient => Some 60%Z
  | KAuthExpired | KUnclassified => None
  end.

(** The login the row asks for, if any. *)
Definition table_login (k : FailureKind) : option string :=
  match k with
  | KAuthExpired | KRateLimited => Some renew
  | KChallengeRequired => Some resume
  | KTransient | KUnclassified => None
  end.

(** The recovery action of a row: the wait, then the login. *)
Definition recovery (self_login : string -> M string) (k : FailureKind) : M unit :=
  match table_wait k with
  | Some seconds => time_sleep seconds
  | None => ret tt
  end ;;
  match table_login k with
  | Some mode => self_login mode ;; ret tt
  | None => ret tt
  end.

(** The world once [msg] is logged as an error. *)
Definition announced (msg : string) (w : world) : world :=
  snd (logger ERROR msg w).

(** ** The dispatch of the specification *)

(** §4.3, the lookup rule in the words of the specification: for one of the
    two simple kinds, the single image (1) and the album (8), the sub-kind
    is normalised to ['any']; otherwise the sub-kind of the metadata is
    used as it is. *)
Definition normalised_key (kind subkind : pyval) : pyval * pyval :=
  match kind with
  | PyInt z =>
      if decide (z = 1 \/ z = 8)%Z then (kind, PyStr "any")
      else (kind, subkind)
  | _ => (kind, subkind)
  end.

(** §4.3, the five-strategy table, entry by entry; a key that is not one of
    the five has no strategy. *)
Definition strategy_table (key : pyval * pyval) : option strategy :=
  match key with
  | (PyInt z, PyStr s) =>
      if decide ((z, s) = (1%Z, "any")) then Some photo_download
      else if decide ((z, s) = (2%Z, "feed")) then Some video_download
      else if decide ((z, s) = (2%Z, "clips")) then Some clip_download
      else if decide ((z, s) = (2%Z, "igtv")) then Some igtv_download
      else if decide ((z, s) = (8%Z, "any")) then Some album_download
      else None
  | _ => None
  end.

(** The strategy the specification dispatches a descriptor to, if any. *)
Definition dispatch (kind subkind : pyval) : option strategy :=
  strategy_table (normalised_key kind subkind).

(** A value Python can hash: every value here but a dictionary. *)
Definition hashable (v : pyval) : bool :=
  match v with
  | PyDict _ => false
  | _ => true
  end.

(** The trace once the dispatch is done: the download of the strategy found
    is the newest call, and no call was added when none was found. *)
Definition after_dispatch (found : option strategy) (media_pk : string)
    (folder : path) (tr : list event) : list event :=
  match found with
  | Some s => EvDownload s media_pk folder :: tr
  | None => tr
  end.

(** ** Observations on a trace *)

(** The number of identifier-to-key resolutions in a trace: one for each
    run of the body of [get_post_content] that passes the guard. *)
Definition resolutions (tr : list event) : nat :=
  length (List.filter
            (fun ev => match ev with EvMediaPkFromCode _ => true | _ => false end)
            tr).

(** The number of credential logins in a trace: one for each run of the
    body of [login] that reaches [client.login]. *)
Definition credential_logins (tr : list event) : nat :=
  length (List.filter
            (fun ev => match ev with EvClientLogin _ => true | _ => false end)
            tr).

Definition downloads (tr : list event) : nat :=
  length (List.filter
            (fun ev => match ev with EvDownload _ _ _ => true | _ => false end)
            tr).

(** ** Sample configurations, worlds and outsides *)

Definition sample_configuration : configuration_dict :=
  ConfigurationDict "my_username" "my_password" "data/session.json" 1 false
    "my_seed_secret" "en_US" 1 10800 "Mozilla/5.0" None 10.

Definition device : pyval :=
  PyDict {[ "phone_id" := PyStr "57d64c41"; "uuid" := PyStr "8aa373c6" ]}.

(** A client that knows its device and nothing else; no session file. *)
Definition fresh_world : world :=
  World {[ "uuids" := device ]} ∅ [] [].

Definition photo_info : gmap string pyval :=
  list_to_map
    [ ("media_type", PyInt 1); ("product_type", PyStr "");
      ("user", PyDict {[ "username" := PyStr "alice" ]}) ].

(** An outside where every call succeeds: the post is a photo of [alice],
    the login adds a token to the settings, the directory holds one file,
    the session file can be written. *)
Definition calm : environment :=
  Environment
    (fun _ _ => Ok sample_configuration)
    (fun _ => {[ "uuids" := device ]})
    (fun _ _ => Ok "123456")
    (fun _ s _ => (Ok tt, <["authorization_data" := PyStr "token"]> s))
    (fun _ => Ok tt)
    (fun _ _ => Ok "3141592653")
    (fun _ _ => Ok photo_info)
    (fun _ _ => Ok tt)
    (fun _ _ _ _ => Ok tt)
    (fun _ _ => Ok ["3141592653.jpg"])
    (fun _ _ => Ok tt).

(** [env], except for the answers to [media_pk_from_code], to
    [media_info], to [client.login], to [os.listdir] or to
    [dump_settings]. *)
Definition with_media_pk_from_code (env : environment)
    (answer : list event -> string -> result string) : environment :=
  Environment (read_secret env) (new_client env) (totp_generate_code env)
    (client_login env) (get_timeline_feed env) answer (media_info env)
    (os_makedirs env) (download_into env) (os_listdir env)
    (dump_settings env).

Definition with_media_info (env : environment)
    (answer : list event -> string -> result (gmap string pyval)) : environment :=
  Environment (read_secret env) (new_client env) (totp_generate_code env)
    (client_login env) (get_timeline_feed env) (media_pk_from_code env) answer
    (os_makedirs env) (download_into env) (os_listdir env)
    (dump_settings env).

Definition with_client_login (env : environment)
    (answer : list event -> gmap string pyval -> login_args ->
              result unit * gmap string pyval) : environment :=
  Environment (read_secret env) (new_client env) (totp_generate_code env)
    answer (get_timeline_feed env) (media_pk_from_code env) (media_info env)
    (os_makedirs env) (download_into env) (os_listdir env)
    (dump_settings env).

Definition with_os_listdir (env : environment)
    (answer : list event -> path -> result (list string)) : environment :=
  Environment (read_secret env) (new_client env) (totp_generate_code env)
    (client_login env) (get_timeline_feed env) (media_pk_from_code env)
    (media_info env) (os_makedirs env) (download_into env) answer
    (dump_settings env).

Definition with_dump_settings (env : environment)
    (answer : list event -> string -> result unit) : environment :=
  Environment (read_secret env) (new_client env) (totp_generate_code env)
    (client_login env) (get_timeline_feed env) (media_pk_from_code env)
    (media_info env) (os_makedirs env) (download_into env) (os_listdir env)
    answer.

(** Every resolution raises [first] and the credential login is refused. *)
Definition login_refused (first : exn) : environment :=
  with_client_login
    (with_media_pk_from_code calm (fun _ _ => Raise first))
    (fun _ s _ => (Raise (OtherError "BadPassword"), s)).

(** The first credential login times out, the next ones succeed. *)
Definition flaky_login : environment :=
  with_client_login calm
    (fun tr s args =>
       match credential_logins tr with
       | O => (Raise ReadTimeoutError, s)
       | S _ => client_login calm tr s args
       end).

(** The download returns, the directory is empty afterwards. *)
Definition empty_directory : environment :=
  with_os_listdir calm (fun _ _ => Ok []).

(** The post is a single image that the metadata files under the sub-kind
    ['feed']. *)
Definition feed_photo_info : gmap string pyval :=
  <["product_type" := PyStr "feed"]> photo_info.

Definition feed_photo : environment :=
  with_media_info calm (fun _ _ => Ok feed_photo_info).

(** The session file cannot be written. *)
Definition read_only_store : environment :=
  with_dump_settings calm (fun _ _ => Raise (OtherError "PermissionError")).

(** The post is a story: kind 2 with a sub-kind that is in no entry of the
    table; nothing is written to the directory. *)
Definition story_info : gmap string pyval :=
  list_to_map
    [ ("media_type", PyInt 2); ("product_type", PyStr "story");
      ("user", PyDict {[ "username" := PyStr "alice" ]}) ].

Definition story : environment :=
  with_os_listdir (with_media_info calm (fun _ _ => Ok story_info))
    (fun _ _ => Ok []).

(** The post was deleted. *)
Definition deleted_post : environment :=
  with_media_pk_from_code calm (fun _ _ => Raise MediaNotFound).

(** A client logged in by [calm], whose session is in the session file. *)
Definition logged_in_world : world :=
  World
    (<["authorization_data" := PyStr "token"]> {[ "uuids" := device ]})
    {[ "data/session.json" :=
         <["authorization_data" := PyStr "token"]> {[ "uuids" := device ]} ]}
    [] [].

(** ** Sentences of the specification, as stated *)

(** §4.2: a first invocation of the body of [get_post_content] that raises
    a classified failure is followed by the recovery action and by exactly
    one more invocation. *)
Definition retried_once (env : environment) (cfg : configuration_dict)
    (depth : nat) (shortcode : string) (error_count : Z) (w : world) : Prop :=
  forall e w1,
    get_post_content_body env shortcode error_count w = (Raise e, w1) ->
    classify e <> KUnclassified ->
    resolutions (trace (snd (get_post_content env cfg depth shortcode error_count w)))
    = (2 + resolutions (trace w))%nat.

(** §4.1: an exception raised by the body of [login] reaches the caller of
    [login] as it is, from the world the body left. *)
Definition login_never_retries (env : environment) (cfg : configuration_dict)
    (depth : nat) (method : string) (w : world) : Prop :=
  forall e w1,
    login_body env cfg method w = (Raise e, w1) ->
    login env cfg depth method w = (Raise e, w1).

(** The session in the session file. *)
Definition persisted (cfg : configuration_dict) (w : world)
    : option (gmap string pyval) :=
  files w !! session_file cfg.

(** §8: after [login(renew)] the persisted session is not the one from
    before the call. *)
Definition renew_changes_persisted_session (env : environment)
    (cfg : configuration_dict) (depth : nat) (w : world) : Prop :=
  persisted cfg (snd (login env cfg depth renew w)) <> persisted cfg w.





(** §4.4 step 2 fails with [e]: the identifier-to-key resolution raises
    it, or the resolution returns and the metadata fetch raises it. [tr] is
    the trace when the body of [get_post_content] starts. *)
Definition resolution_raises (env : environment) (tr : list event)
    (shortcode : string) (e : exn) : Prop :=
  media_pk_from_code env tr shortcode = Raise e \/
  exists media_pk,
    media_pk_from_code env tr shortcode = Ok media_pk /\
    media_info env (EvMediaPkFromCode shortcode :: tr) media_pk = Raise e.

(** The calls a run of the branch [relogin] issues up to the credential
    login, newest first, after the trace [tr]: the settings are read,
    replaced by the empty dictionary, and the device identity is put back. *)
Definition relogin_trace (uuids : pyval) (tr : list event) : list event :=
  EvSetUuids uuids :: EvSetSettings ∅ :: EvGetSettings :: tr.

(** A computation that adds at most [n] resolutions to the trace. *)
Definition resolves_at_most {A} (n : nat) (c : M A) : Prop :=
  forall w, (resolutions (trace (snd (c w))) <= n + resolutions (trace w))%nat.

(** The session is rejected at the first credential login and accepted at
    the next ones. *)
Definition session_rejected_once : environment :=
  with_client_login calm
    (fun tr s args =>
       match credential_logins tr with
       | O => (Raise LoginRequired, s)
       | S _ => client_login calm tr s args
       end).

(** Every credential login is answered with [LoginRequired]. *)
Definition session_always_rejected : environment :=
  with_client_login calm (fun _ s _ => (Raise LoginRequired, s)).

(** The first resolution times out, the next ones succeed. *)
Definition flaky_resolution : environment :=
  with_media_pk_from_code calm
    (fun tr code =>
       match resolutions tr with
       | O => Raise ReadTimeoutError
       | S _ => media_pk_from_code calm tr code
       end).

(** ** The calls a computation adds to the trace *)

(** The sum of the weights of the events of a trace. *)
Definition measure (weight : event -> nat) (tr : list event) : nat :=
  foldr (fun ev n => (weight ev + n)%nat) O tr.

(** Every run of [c] leaves the trace it found in place and adds, in front
    of it, events that are all [allowed] and weigh [n] at most together. *)
Definition adds {A} (allowed : event -> bool) (weight : event -> nat)
    (n : nat) (c : M A) : Prop :=
  forall w,
    exists new,
      trace (snd (c w)) = (new ++ trace w)%list /\
      Forall (fun ev => allowed ev = true) new /\
      (measure weight new <= n)%nat.

(** The calls the body of [login] can issue under the configuration [cfg]:
    a code for the configured seed when two-factor authentication is on, the
    settings read, reset to the empty dictionary or given their device
    identity, the session file loaded or written, a credential login with
    the configured user and password, the liveness check. *)
Definition login_body_event (cfg : configuration_dict) (ev : event) : bool :=
  match ev with
  | EvTotpGenerateCode seed =>
      two_fa_enabled cfg && String.eqb seed (two_fa_seed cfg)
  | EvLoadSettings file | EvDumpSettings file =>
      String.eqb file (session_file cfg)
  | EvGetSettings | EvSetUuids _ | EvGetTimelineFeed => true
  | EvSetSettings s => bool_decide (s = ∅)
  | EvClientLogin args =>
      String.eqb (arg_username args) (username cfg)
      && String.eqb (arg_password args) (password cfg)
  | _ => false
  end.

(** The waits of the decorator: an hour or a minute. *)
Definition wait_event (ev : event) : bool :=
  match ev with
  | EvSleep seconds => (seconds =? 3600)%Z || (seconds =? 60)%Z
  | _ => false
  end.

(** The calls the decorated [login] can issue. *)
Definition login_event (cfg : configuration_dict) (ev : event) : bool :=
  login_body_event cfg ev || wait_event ev.

(** The calls the body of [get_post_content] can issue for [shortcode]. *)
Definition fetch_body_event (shortcode : string) (ev : event) : bool :=
  match ev with
  | EvMediaPkFromCode code => String.eqb code shortcode
  | EvMediaInfo _ | EvMakedirs _ | EvDownload _ _ _ | EvListdir _ => true
  | _ => false
  end.

(** The calls the decorated [get_post_content] can issue. *)
Definition fetch_event (cfg : configuration_dict) (shortcode : string)
    (ev : event) : bool :=
  fetch_body_event shortcode ev || login_event cfg ev.

Definition no_weight (ev : event) : nat := O.

Definition credential_login_weight (ev : event) : nat :=
  match ev with EvClientLogin _ => 1%nat | _ => O end.

Definition download_weight (ev : event) : nat :=
  match ev with EvDownload _ _ _ => 1%nat | _ => O end.

(** The seconds an event blocks the calling thread. *)
Definition sleep_weight (ev : event) : nat :=
  match ev with EvSleep seconds => Z.to_nat seconds | _ => O end.

(** The seconds slept in a trace. *)
Definition slept (tr : list event) : nat := measure sleep_weight tr.

(** ** What a computation leaves as it is *)

(** Every run of [c] ends in a world related by [I] to the one it found. *)
Definition keeps {A} (I : world -> world -> Prop) (c : M A) : Prop :=
  forall w, I w (snd (c w)).

(** The client's settings and all files are as before. *)
Definition same_session (w w' : world) : Prop :=
  settings w' = settings w /\ files w' = files w.

(** [env], except for the answers of the download strategies. *)
Definition with_download_into (env : environment)
    (answer : list event -> strategy -> string -> path -> result unit)
    : environment :=
  Environment (read_secret env) (new_client env) (totp_generate_code env)
    (client_login env) (get_timeline_feed env) (media_pk_from_code env)
    (media_info env) (os_makedirs env) answer (os_listdir env)
    (dump_settings env).

(** The post is there when it is resolved and gone when it is downloaded. *)
Definition vanishing_post : environment :=
  with_download_into calm (fun _ _ _ _ => Raise MediaUnavailable).

(** The metadata has no entry ['user']. *)
Definition no_user : environment :=
  with_media_info calm (fun _ _ => Ok (delete "user" photo_info)).

(** The calls of the constructor before [self.login()], newest first, after
    the trace [tr]: the client is created, configured by seven setters and
    asked for its settings. *)
Definition constructor_trace (tr : list event) : list event :=
  EvGetSettings :: EvConfigure "proxy" :: EvConfigure "user_agent"
  :: EvConfigure "timezone_offset" :: EvConfigure "country_code"
  :: EvConfigure "locale" :: EvConfigure "request_timeout"
  :: EvConfigure "delay_range" :: EvNewClient :: tr.

(** [calm], except that the vault cannot be read. *)
Definition sealed_vault : environment :=
  Environment (fun _ _ => Raise (OtherError "VaultError")) (new_client calm)
    (totp_generate_code calm) (client_login calm) (get_timeline_feed calm)
    (media_pk_from_code calm) (media_info calm) (os_makedirs calm)
    (download_into calm) (os_listdir calm) (dump_settings calm).

(** ** The decorator: lemmas *)

Lemma exceptions_handler_returns {A} (self_login : string -> M string)
    (method : M A) (w w1 : world) (a : A) :
  method w = (Ok a, w1) ->
  exceptions_handler self_login method w = (Ok a, w1).
Proof. intros H. unfold exceptions_handler. now rewrite H. Qed.

Lemma exceptions_handler_unclassified {A} (self_login : string -> M string)
    (method : M A) (w w1 : world) (e : exn) :
  method w = (Raise e, w1) ->
  classify e = KUnclassified ->
  exceptions_handler self_login method w = (Raise e, w1).
Proof.
  intros H Hk. unfold exceptions_handler. rewrite H.
  destruct e; try reflexivity; discriminate Hk.
Qed.

(** After a classified failure the decorator logs, runs the row of the
    table and calls the method again. *)
Lemma exceptions_handler_classified {A} (self_login : string -> M string)
    (method : M A) (w w1 : world) (e : exn) :
  method w = (Raise e, w1) ->
  classify e <> KUnclassified ->
  exists msg,
    exceptions_handler self_login method w =
    (recovery self_login (classify e) ;; method) (announced msg w1).
Proof.
  intros H Hk. unfold exceptions_handler. rewrite H.
  destruct e; try (exfalso; apply Hk; reflexivity);
    unfold bind, logger; cbn;
    match goal with
    | |- context [(ERROR, ?m)] => exists m
    end;
    unfold recovery, bind, announced, renew, resume; cbn;
    try reflexivity;
    match goal with
    | |- context [self_login ?m ?w'] => destruct (self_login m w') as [[v|e'] w2]
    end; reflexivity.
Qed.

(** ** Computations: lemmas *)

Lemma bind_returns {A B} (c : M A) (k : A -> M B) (w w2 : world) (b : B) :
  (x <- c ;; k x) w = (Ok b, w2) ->
  exists a w1, c w = (Ok a, w1) /\ k a w1 = (Ok b, w2).
Proof.
  unfold bind. destruct (c w) as [[a|e] w1]; [eauto | discriminate].
Qed.

Lemma logger_trace (l : level) (msg : string) (w : world) :
  trace (snd (logger l msg w)) = trace w.
Proof. reflexivity. Qed.

(** ** [login]: what it returns *)

Lemma login_body_returns_logged_in (env : environment)
    (cfg : configuration_dict) (method : string) (w w1 : world) (v : string) :
  login_body env cfg method w = (Ok v, w1) -> v = "logged_in".
Proof.
  unfold login_body. intros H.
  repeat (apply bind_returns in H; destruct H as (? & ? & _ & H)).
  unfold ret in H. congruence.
Qed.

Lemma exceptions_handler_returns_inv {A} (self_login : string -> M string)
    (method : M A) (w w2 : world) (a : A) :
  exceptions_handler self_login method w = (Ok a, w2) ->
  exists w1, method w1 = (Ok a, w2).
Proof.
  unfold exceptions_handler.
  destruct (method w) as [[a0|e] w1] eqn:Hm.
  - intros [= <- <-]. eauto.
  - destruct e; try discriminate; intros H;
      repeat (apply bind_returns in H; destruct H as (? & ? & _ & H)); eauto.
Qed.

Lemma login_returns_inv (env : environment) (cfg : configuration_dict)
    (depth : nat) (method : string) (w w1 : world) (v : string) :
  login env cfg depth method w = (Ok v, w1) -> v = "logged_in".
Proof.
  destruct depth as [|d]; cbn [login].
  - discriminate.
  - intros H. apply exceptions_handler_returns_inv in H as [w0 H].
    eapply login_body_returns_logged_in; eauto.
Qed.

(** C2, as amended. For every operation the decorator wraps: the operation
    is invoked once; a result of that invocation is returned as it is; an
    exception outside the classification propagates from the world the first
    invocation left, with no second invocation; after a classified failure
    the decorator logs and runs the recovery action of the table, and when
    that action returns, the operation is invoked exactly one more time, on
    the original arguments, and what that second invocation returns or raises
    is the outcome of the call (no third invocation); when the recovery
    action raises (the login it calls fails), its exception propagates and
    the operation is not invoked again. *)
Theorem exceptions_handler_single_retry {A} (self_login : string -> M string)
    (method : M A) (w : world) :
  match method w with
  | (Ok a, w1) => exceptions_handler self_login method w = (Ok a, w1)
  | (Raise e, w1) =>
      match classify e with
      | KUnclassified =>
          exceptions_handler self_login method w = (Raise e, w1)
      | k =>
          exists msg,
            match recovery self_login k (announced msg w1) with
            | (Ok _, w2) =>
                exceptions_handler self_login method w = method w2
            | (Raise e', w2) =>
                exceptions_handler self_login method w = (Raise e', w2)
            end
      end
  end.
Proof.
  destruct (method w) as [[a|e] w1] eqn:H.
  - now apply exceptions_handler_returns.
  - destruct (classify e) eqn:Hk;
      try (destruct (exceptions_handler_classified self_login method w w1 e H)
             as [msg Hm]; [rewrite Hk; discriminate|];
           exists msg; rewrite Hm, Hk; unfold bind;
           match goal with
           | |- context [recovery ?l ?k ?w'] =>
               destruct (recovery l k w') as [[u|e'] w2]
           end; reflexivity).
    now apply exceptions_handler_unclassified.
Qed.

(** C2, counterexample. The session is rejected at the resolution and the
    credential login of the recovery is refused: the first invocation raised
    a classified failure, yet there is no second invocation. *)
Lemma login_refused_no_second_invocation :
  ~ retried_once (login_refused LoginRequired) sample_configuration 3
      "ABC123" 0 fresh_world.
Proof.
  intros H.
  specialize (H LoginRequired _ eq_refl).
  assert (Hk : classify LoginRequired <> KUnclassified) by discriminate.
  specialize (H Hk). vm_compute in H. discriminate H.
Qed.

(** C3, as amended. The recovery of the decorator is the row of the table:
    after a failure of the wrapped operation the decorator logs an error
    and, for [LoginRequired], calls login in renew mode with no wait; for
    [ChallengeRequired], waits 3600 seconds and calls login with the default
    ['session'] method (resume); for [PleaseWaitFewMinutes], waits 3600
    seconds and calls login in renew mode; for the three timeouts, waits 60
    seconds and calls no login. Once the login of the row has returned
    (there is none for a timeout) the wrapped operation is invoked exactly
    one more time; a login that raises ends the call with its exception
    ([;;] runs what follows only after a return) and the operation is not
    retried. *)
Theorem exceptions_handler_recovery_rows {A} (self_login : string -> M string)
    (method : M A) (w w1 : world) (e : exn) :
  method w = (Raise e, w1) ->
  exists msg,
    exceptions_handler self_login method w =
    match classify e with
    | KAuthExpired =>
        (self_login renew ;; method) (announced msg w1)
    | KChallengeRequired =>
        (self_login resume ;; method) (record (EvSleep 3600) (announced msg w1))
    | KRateLimited =>
        (self_login renew ;; method) (record (EvSleep 3600) (announced msg w1))
    | KTransient =>
        method (record (EvSleep 60) (announced msg w1))
    | KUnclassified =>
        (Raise e, w1)
    end.
Proof.
  intros H. unfold exceptions_handler. rewrite H.
  destruct e; cbn [classify]; try (exists ""; reflexivity);
    unfold bind, logger, announced, time_sleep, renew, resume; cbn;
    match goal with
    | |- context [(ERROR, ?m)] => exists m
    end;
    try reflexivity;
    match goal with
    | |- context [self_login ?m ?w'] =>
        destruct (self_login m w') as [[v|e'] w2]
    end; reflexivity.
Qed.

Lemma exceptions_handler_recovery_rows_witness :
  let env := login_refused ChallengeRequired in
  let method := get_post_content_body env "ABC123" 0 in
  let self_login := login env sample_configuration 2 in
  method fresh_world = (Raise ChallengeRequired, snd (method fresh_world)) /\
  exists msg,
    exceptions_handler self_login method fresh_world =
    (self_login resume ;; method)
      (record (EvSleep 3600) (announced msg (snd (method fresh_world)))).
Proof.
  intros env method self_login. split.
  - reflexivity.
  - apply (exceptions_handler_recovery_rows self_login method fresh_world
             (snd (method fresh_world)) ChallengeRequired).
    reflexivity.
Defined.

(** C3, counterexample. The service demands a challenge at the resolution;
    the decorator waits an hour and calls login, whose credential login is
    refused: the wrapped operation is not retried. *)
Lemma challenge_login_refused_no_retry :
  ~ retried_once (login_refused ChallengeRequired) sample_configuration 3
      "ABC123" 0 fresh_world.
Proof.
  intros H.
  specialize (H ChallengeRequired _ eq_refl).
  assert (Hk : classify ChallengeRequired <> KUnclassified) by discriminate.
  specialize (H Hk). vm_compute in H. discriminate H.
Qed.

(** C8, as amended. [login] is itself decorated with [exceptions_handler].
    An exception of its body that is outside the classification propagates
    to the caller of [login] unchanged, from the world the body left, with
    no recovery and no second invocation of the body. After a classified
    failure of the body the decorator logs and runs the recovery action of
    the table (its login is the decorated [login], one call deeper): when
    that action returns, the body of [login] is invoked a second time on the
    same argument, and what that invocation returns or raises is the outcome
    of the call; when the recovery action raises, its exception propagates
    and the body is not invoked again. *)
Theorem login_is_decorated (env : environment) (cfg : configuration_dict)
    (d : nat) (method : string) (w w1 : world) (e : exn) :
  login_body env cfg method w = (Raise e, w1) ->
  match classify e with
  | KUnclassified => login env cfg (S d) method w = (Raise e, w1)
  | k =>
      exists msg,
        match recovery (login env cfg d) k (announced msg w1) with
        | (Ok _, w2) =>
            login env cfg (S d) method w = login_body env cfg method w2
        | (Raise e', w2) =>
            login env cfg (S d) method w = (Raise e', w2)
        end
  end.
Proof.
  intros H. cbn [login].
  destruct (classify e) eqn:Hk;
    try (destruct (exceptions_handler_classified (login env cfg d)
                     (login_body env cfg method) w w1 e H) as [msg Hm];
         [rewrite Hk; discriminate|];
         exists msg; rewrite Hm, Hk; unfold bind;
         match goal with
         | |- context [recovery ?l ?k ?w'] =>
             destruct (recovery l k w') as [[u|e'] w2]
         end; reflexivity).
  now apply exceptions_handler_unclassified.
Qed.

Lemma login_is_decorated_witness :
  let body := login_body flaky_login sample_configuration "session" in
  body fresh_world = (Raise ReadTimeoutError, snd (body fresh_world)) /\
  exists msg,
    match
      recovery (login flaky_login sample_configuration 0) KTransient
        (announced msg (snd (body fresh_world)))
    with
    | (Ok _, w2) =>
        login flaky_login sample_configuration 1 "session" fresh_world =
        body w2
    | (Raise e', w2) =>
        login flaky_login sample_configuration 1 "session" fresh_world =
        (Raise e', w2)
    end.
Proof.
  intros body. split.
  - reflexivity.
  - apply (login_is_decorated flaky_login sample_configuration 0 "session"
             fresh_world (snd (body fresh_world)) ReadTimeoutError).
    reflexivity.
Defined.

(** C8, counterexample. The first credential login times out: the body of
    [login] raises, the decorator waits a minute and runs the body again,
    and [login] returns ['logged_in'] instead of raising. *)
Lemma login_retries_after_timeout :
  ~ login_never_retries flaky_login sample_configuration 1 "session"
      fresh_world.
Proof.
  intros H.
  specialize (H ReadTimeoutError _ eq_refl).
  vm_compute in H. discriminate H.
Qed.

(** C10. Whenever the decorated [login] returns, what it returns is
    ['logged_in']; so the constructor's check of [auth_status] passes
    whenever [login] returns: the constructor's call and check are the login
    followed by the log record of the success, the branch that raises
    [FailedAuthInstagram] is never taken, and the constructor, given a
    configuration and a vault, returns when [login] returns and otherwise
    raises the exception [login] itself raised. *)
Theorem login_returns_logged_in (env : environment) (cfg : configuration_dict)
    (depth : nat) (method : string) (w : world) :
  match login env cfg depth method w with
  | (Ok v, _) => v = "logged_in"
  | (Raise _, _) => True
  end /\
  authenticate env cfg depth w =
  match login env cfg depth "session" w with
  | (Ok _, w1) =>
      logger INFO "[Downloader]: Instance created successfully with account %s" w1
  | (Raise e, w1) => (Raise e, w1)
  end /\
  exists w0 : world,
    __init__ env depth (Some cfg) true w =
    match login env cfg depth "session" w0 with
    | (Ok _, w1) =>
        (Ok cfg,
         snd (logger INFO "[Downloader]: Instance created successfully with account %s" w1))
    | (Raise e, w1) => (Raise e, w1)
    end.
Proof.
  assert (Hauth : forall w',
    authenticate env cfg depth w' =
    match login env cfg depth "session" w' with
    | (Ok _, w1) =>
        logger INFO "[Downloader]: Instance created successfully with account %s" w1
    | (Raise e, w1) => (Raise e, w1)
    end).
  { intros w'. unfold authenticate, bind.
    destruct (login env cfg depth "session" w') as [[v|e] w1] eqn:H;
      [|reflexivity].
    apply login_returns_inv in H. subst v. reflexivity. }
  split; [|split].
  - destruct (login env cfg depth method w) as [[v|e] w1] eqn:H; [|exact I].
    eapply login_returns_inv; eauto.
  - apply Hauth.
  - unfold __init__, bind, logger, new_Client, configure, client_get_settings, ret.
    cbn [negb].
    match goal with
    | |- context [authenticate env cfg depth ?w'] => exists w'
    end.
    rewrite Hauth.
    destruct (login env cfg depth "session" _) as [[v|e] w1]; reflexivity.
Qed.

(** C5. With [error_count > 3] the decorated [get_post_content] raises
    [FailedDownloadPost] and has issued no call: the trace, the client's
    settings and the files are those of before; only the log has grown. *)
Theorem get_post_content_budget_exhausted (env : environment)
    (cfg : configuration_dict) (depth : nat) (shortcode : string)
    (error_count : Z) (w : world) :
  (error_count > 3)%Z ->
  exists msg,
    get_post_content env cfg depth shortcode error_count w =
      (Raise FailedDownloadPost, announced msg w) /\
    trace (announced msg w) = trace w /\
    settings (announced msg w) = settings w /\
    files (announced msg w) = files w.
Proof.
  intros Hec.
  assert (Hb : (3 <? error_count)%Z = true) by (apply Z.ltb_lt; lia).
  eexists. split; [|repeat split].
  apply exceptions_handler_unclassified; [|reflexivity].
  unfold get_post_content_body. rewrite Hb. reflexivity.
Qed.

Lemma get_post_content_budget_exhausted_witness :
  (4 > 3)%Z /\
  exists msg,
    get_post_content calm sample_configuration 1 "ABC123" 4 fresh_world =
      (Raise FailedDownloadPost, announced msg fresh_world) /\
    trace (announced msg fresh_world) = trace fresh_world /\
    settings (announced msg fresh_world) = settings fresh_world /\
    files (announced msg fresh_world) = files fresh_world.
Proof.
  split.
  - lia.
  - apply (get_post_content_budget_exhausted calm sample_configuration 1
             "ABC123" 4 fresh_world).
    lia.
Defined.

(** C4. When the resolution of the identifier raises [MediaUnavailable] or
    [MediaNotFound], at the identifier-to-key step or at the metadata fetch,
    [get_post_content] returns the outcome with owner and type ['undefined']
    and status ['source_not_found'], whatever the outside would answer to
    any later call. *)
Theorem get_post_content_source_not_found (env : environment)
    (cfg : configuration_dict) (depth : nat) (shortcode : string)
    (error_count : Z) (w : world) (e : exn) :
  (error_count <= 3)%Z ->
  e = MediaUnavailable \/ e = MediaNotFound ->
  resolution_raises env (trace w) shortcode e ->
  fst (get_post_content env cfg depth shortcode error_count w) =
  Ok (Outcome shortcode (PyStr "undefined") (PyStr "undefined")
        "source_not_found").
Proof.
  intros Hec He Hres.
  assert (Hb : (3 <? error_count)%Z = false) by (apply Z.ltb_ge; lia).
  assert (Hbody : exists w1,
             get_post_content_body env shortcode error_count w =
             (Ok (Outcome shortcode (PyStr "undefined") (PyStr "undefined")
                    "source_not_found"), w1)).
  { unfold get_post_content_body. rewrite Hb.
    unfold bind, logger, try_except_media, client_media_pk_from_code,
      client_media_info, call; cbn.
    destruct Hres as [H1 | (pk & H1 & H2)].
    - rewrite H1. destruct He; subst e; eexists; reflexivity.
    - rewrite H1. cbn. rewrite H2. destruct He; subst e; eexists; reflexivity. }
  destruct Hbody as [w1 Hbody].
  unfold get_post_content.
  now rewrite (exceptions_handler_returns _ _ _ _ _ Hbody).
Qed.

Lemma get_post_content_source_not_found_witness :
  (0 <= 3)%Z /\
  (MediaNotFound = MediaUnavailable \/ MediaNotFound = MediaNotFound) /\
  resolution_raises deleted_post (trace fresh_world) "ABC123" MediaNotFound /\
  fst (get_post_content deleted_post sample_configuration 1 "ABC123" 0
         fresh_world) =
  Ok (Outcome "ABC123" (PyStr "undefined") (PyStr "undefined")
        "source_not_found").
Proof.
  assert (H1 : (0 <= 3)%Z) by lia.
  assert (H2 : MediaNotFound = MediaUnavailable \/ MediaNotFound = MediaNotFound)
    by (right; reflexivity).
  assert (H3 : resolution_raises deleted_post (trace fresh_world) "ABC123"
                 MediaNotFound) by (left; reflexivity).
  split; [exact H1|]. split; [exact H2|]. split; [exact H3|].
  exact (get_post_content_source_not_found deleted_post sample_configuration 1
           "ABC123" 0 fresh_world MediaNotFound H1 H2 H3).
Defined.

(** ** [get_post_content]: the outcome *)

Lemma try_except_media_returns {A} (body : M A) (handler : exn -> M A)
    (w w2 : world) (a : A) :
  try_except_media body handler w = (Ok a, w2) ->
  body w = (Ok a, w2) \/
  exists e w1, body w = (Raise e, w1) /\ handler e w1 = (Ok a, w2).
Proof.
  unfold try_except_media.
  destruct (body w) as [[a0|e] w1]; [intros [= <- <-]; now left|].
  destruct e; try discriminate; intros H; right; eauto.
Qed.

(** The outcome built by both branches: the label is the sub-type when the
    metadata has a non-empty one, and ['photo'] when the entry is there but
    empty or [None]; without the entry no outcome is built. *)
Lemma response_returns (shortcode : string) (media_info : gmap string pyval)
    (st : option string) (fallback : string) (w w' : world) (r : FetchOutcome) :
  response shortcode media_info st fallback w = (Ok r, w') ->
  exists pt,
    media_info !! "product_type" = Some pt /\
    type r = (if truthy pt then pt else PyStr "photo") /\
    status r = status_or st fallback /\
    post r = shortcode.
Proof.
  unfold response. intros H.
  apply bind_returns in H as (user & w1 & _ & H).
  apply bind_returns in H as (name & w2 & _ & H).
  apply bind_returns in H as (pt & w3 & Hpt & H).
  apply bind_returns in H as (ty & w4 & Hty & H).
  unfold ret in H. injection H as <- <-.
  unfold subscript in Hpt.
  destruct (media_info !! "product_type") as [pt'|] eqn:Hl; [|discriminate].
  unfold ret in Hpt. injection Hpt as -> ->.
  exists pt. split; [reflexivity|]. cbn. repeat split.
  destruct (truthy pt).
  - unfold subscript in Hty. rewrite Hl in Hty. unfold ret in Hty. congruence.
  - unfold ret in Hty. congruence.
Qed.

(** No run of the body ends with the status ['failed']: when the listing is
    taken, [status] already holds ['completed'] or ['not_supported'], and
    the fallback of [status if status else 'failed'] is never used. *)
Lemma get_post_content_body_status (env : environment) (shortcode : string)
    (error_count : Z) (w w' : world) (r : FetchOutcome) :
  get_post_content_body env shortcode error_count w = (Ok r, w') ->
  status r = "completed" \/ status r = "not_supported" \/
  status r = "source_not_found".
Proof.
  unfold get_post_content_body.
  destruct (3 <? error_count)%Z.
  { intros H. apply bind_returns in H as (? & ? & _ & H). discriminate H. }
  intros H. apply bind_returns in H as (? & w0 & _ & H).
  apply try_except_media_returns in H as [H | (e & w1 & _ & H)].
  - apply bind_returns in H as (pk & ? & _ & H).
    apply bind_returns in H as (info & ? & _ & H).
    apply bind_returns in H as (mt & ? & _ & H).
    cbv zeta in H.
    apply bind_returns in H as (dm & ? & _ & H).
    apply bind_returns in H as (user & ? & _ & H).
    apply bind_returns in H as (name & ? & _ & H).
    apply bind_returns in H as (? & ? & _ & H).
    apply bind_returns in H as (st & ? & Hst & H).
    apply bind_returns in H as (listing & ? & _ & H).
    assert (Hs : st = Some "completed" \/ st = Some "not_supported").
    { destruct dm.
      - apply bind_returns in Hst as (? & ? & _ & Hst).
        left. unfold ret in Hst. congruence.
      - apply bind_returns in Hst as (? & ? & _ & Hst).
        right. unfold ret in Hst. congruence. }
    destruct listing;
      apply bind_returns in H as (? & ? & _ & H);
      apply response_returns in H as (pt & _ & _ & Hstatus & _);
      rewrite Hstatus; destruct Hs as [-> | ->]; cbn; auto.
  - apply bind_returns in H as (? & ? & _ & H).
    unfold ret in H. injection H as <- <-. cbn. auto.
Qed.

Lemma get_post_content_never_failed (env : environment)
    (cfg : configuration_dict) (depth : nat) (shortcode : string)
    (error_count : Z) (w w' : world) (r : FetchOutcome) :
  get_post_content env cfg depth shortcode error_count w = (Ok r, w') ->
  status r <> "failed".
Proof.
  unfold get_post_content. intros H.
  apply exceptions_handler_returns_inv in H as [w1 H].
  apply get_post_content_body_status in H as [-> | [-> | ->]]; discriminate.
Qed.

(** C1. On the code the claim fails: the photo strategy is found and runs,
    the listing of the owner directory taken after it is empty, and the
    outcome returned has the status ['completed']. *)
Theorem empty_directory_reported_completed :
  let run :=
    get_post_content empty_directory sample_configuration 1 "ABC123" 0
      fresh_world in
  let alice := DataDir (PyStr "alice") in
  trace (snd run) =
    [ EvListdir alice; EvDownload photo_download "3141592653" alice;
      EvMakedirs alice; EvMediaInfo "3141592653"; EvMediaPkFromCode "ABC123" ] /\
  os_listdir empty_directory (tail (trace (snd run))) alice = Ok [] /\
  fst run = Ok (Outcome "ABC123" (PyStr "alice") (PyStr "photo") "completed").
Proof. vm_compute. repeat split. Qed.

Lemma response_with_product_type (shortcode : string)
    (media_info u : gmap string pyval) (name pt : pyval) (st : option string)
    (fallback : string) (w : world) :
  media_info !! "user" = Some (PyDict u) ->
  u !! "username" = Some name ->
  media_info !! "product_type" = Some pt ->
  response shortcode media_info st fallback w =
  (Ok (Outcome shortcode name (if truthy pt then pt else PyStr "photo")
         (status_or st fallback)), w).
Proof.
  intros Hu Hn Hp. unfold response, bind, subscript, subscript_value, ret, raise.
  rewrite Hu. cbv beta iota. unfold subscript, ret, raise.
  rewrite Hn. cbv beta iota. rewrite Hp. cbv beta iota.
  destruct (truthy pt); reflexivity.
Qed.

(** ** The dispatch table *)

(** The table has the five entries of the constructor and no other. *)
Lemma download_methods_entries (z : Z) (s : string) (st : strategy) :
  download_methods !! (z, s) = Some st <->
  (z, s, st) = (1%Z, "any", photo_download) \/
  (z, s, st) = (2%Z, "feed", video_download) \/
  (z, s, st) = (2%Z, "clips", clip_download) \/
  (z, s, st) = (2%Z, "igtv", igtv_download) \/
  (z, s, st) = (8%Z, "any", album_download).
Proof.
  split.
  - unfold download_methods. cbn [list_to_map foldr curry fst snd].
    rewrite !lookup_insert, lookup_empty.
    repeat case_decide; intros Hx;
      try discriminate Hx; injection Hx as <-;
      match goal with
      | E : (_, _) = (z, s) |- _ => injection E as <- <-
      end; tauto.
  - intros [Hx | [Hx | [Hx | [Hx | Hx]]]];
      injection Hx as -> -> ->; reflexivity.
Qed.

Lemma dispatch_key_simple (kind subkind : pyval) :
  kind = PyInt 1 \/ kind = PyInt 8 ->
  dispatch_key kind subkind = (kind, PyStr "any").
Proof. intros [-> | ->]; reflexivity. Qed.

Lemma dispatch_key_verbatim (kind subkind : pyval) :
  kind <> PyInt 1 -> kind <> PyInt 8 ->
  dispatch_key kind subkind = (kind, subkind).
Proof.
  intros H1 H8. unfold dispatch_key.
  destruct kind as [|z| |]; try reflexivity. cbn [in_1_8].
  destruct (Z.eqb_spec z 1) as [->|_]; [now destruct H1|].
  destruct (Z.eqb_spec z 8) as [->|_]; [now destruct H8|].
  reflexivity.
Qed.

(** The lookup of the code, on the key the code builds, finds what the
    table of the specification holds for the normalised key. *)
Lemma download_methods_get_dispatch (mt pt : pyval) :
  hashable mt = true -> hashable pt = true ->
  download_methods_get (dispatch_key mt pt) = Ok (dispatch mt pt).
Proof.
  intros Hmt Hpt. unfold dispatch, normalised_key, dispatch_key.
  destruct mt as [|z|s|d]; try discriminate Hmt.
  - destruct pt; try discriminate Hpt; reflexivity.
  - cbn [in_1_8].
    destruct (decide (z = 1 \/ z = 8)%Z) as [[-> | ->] | Hz];
      [reflexivity | reflexivity |].
    assert (Hb : ((z =? 1)%Z || (z =? 8)%Z) = false).
    { apply orb_false_iff. split; apply Z.eqb_neq; intros ->; apply Hz; auto. }
    rewrite Hb.
    destruct pt as [|z'|s|d]; try discriminate Hpt; try reflexivity.
    cbn [download_methods_get strategy_table]. f_equal.
    unfold download_methods. cbn [list_to_map foldr curry fst snd].
    rewrite !lookup_insert, lookup_empty.
    repeat case_decide; congruence.
  - destruct pt; try discriminate Hpt; reflexivity.
Qed.

(** The dispatch of the specification, kind by kind: the two simple kinds
    whatever the sub-kind, and the three sub-kinds of the video. *)
Lemma dispatch_simple_kinds (subkind : pyval) :
  dispatch (PyInt 1) subkind = Some photo_download /\
  dispatch (PyInt 8) subkind = Some album_download.
Proof. split; reflexivity. Qed.

Lemma dispatch_video_kinds :
  dispatch (PyInt 2) (PyStr "feed") = Some video_download /\
  dispatch (PyInt 2) (PyStr "clips") = Some clip_download /\
  dispatch (PyInt 2) (PyStr "igtv") = Some igtv_download.
Proof. vm_compute. repeat split. Qed.

(** A story is kind 2 with a sub-kind that is in no entry: nothing is
    downloaded and the outcome says so. *)
Example story_not_supported :
  let run := get_post_content story sample_configuration 1 "ABC123" 0
               fresh_world in
  dispatch (PyInt 2) (PyStr "story") = None /\
  fst run =
    Ok (Outcome "ABC123" (PyStr "alice") (PyStr "story") "not_supported") /\
  downloads (trace (snd run)) = 0%nat.
Proof. vm_compute. repeat split. Qed.

(** ** [login] in renew mode *)

(** The login arguments depend on the calls issued so far only, and
    building them touches neither the settings nor the files. *)
Lemma build_login_args_frame (env : environment) (cfg : configuration_dict)
    (w : world) (l : list (level * string)) :
  exists l',
    build_login_args env cfg (World (settings w) (files w) (trace w) l) =
    (fst (build_login_args env cfg w),
     World (settings w) (files w)
       (trace (snd (build_login_args env cfg w))) l').
Proof.
  unfold build_login_args.
  destruct (two_fa_enabled cfg); [|eexists; reflexivity].
  unfold bind, client_totp_generate_code, call, logger, ret. cbn.
  destruct (totp_generate_code env (trace w) (two_fa_seed cfg));
    eexists; reflexivity.
Qed.






(** ** How often the body runs *)

Lemma resolves_at_most_bind {A B} (n m : nat) (c : M A) (k : A -> M B) :
  resolves_at_most n c ->
  (forall a, resolves_at_most m (k a)) ->
  resolves_at_most (n + m) (x <- c ;; k x).
Proof.
  intros Hc Hk w. unfold bind. specialize (Hc w).
  destruct (c w) as [[a|e] w1]; cbn [snd] in *.
  - specialize (Hk a w1). lia.
  - lia.
Qed.

Lemma resolves_at_most_seq {A B} (c : M A) (k : A -> M B) :
  resolves_at_most 0 c ->
  (forall a, resolves_at_most 0 (k a)) ->
  resolves_at_most 0 (x <- c ;; k x).
Proof. intros Hc Hk. apply (resolves_at_most_bind 0 0); assumption. Qed.

Lemma resolves_at_most_ret {A} (a : A) : resolves_at_most 0 (ret a).
Proof. intros w. reflexivity. Qed.

Lemma resolves_at_most_raise {A} (e : exn) : resolves_at_most 0 (@raise A e).
Proof. intros w. reflexivity. Qed.

Lemma resolves_at_most_lift {A} (r : result A) : resolves_at_most 0 (lift r).
Proof. intros w. reflexivity. Qed.

Lemma resolves_at_most_logger (l : level) (msg : string) :
  resolves_at_most 0 (logger l msg).
Proof. intros w. reflexivity. Qed.

Lemma resolves_at_most_sleep (seconds : Z) :
  resolves_at_most 0 (time_sleep seconds).
Proof. intros w. reflexivity. Qed.

Lemma resolves_at_most_call {A} (ev : event) (answer : list event -> result A) :
  match ev with EvMediaPkFromCode _ => False | _ => True end ->
  resolves_at_most 0 (call ev answer).
Proof. intros Hev w. destruct ev; try reflexivity. destruct Hev. Qed.

Lemma resolves_at_most_subscript (d : gmap string pyval) (k : string) :
  resolves_at_most 0 (subscript d k).
Proof.
  unfold subscript. destruct (d !! k);
    [apply resolves_at_most_ret | apply resolves_at_most_raise].
Qed.

Lemma resolves_at_most_subscript_value (v : pyval) (k : string) :
  resolves_at_most 0 (subscript_value v k).
Proof.
  destruct v; try apply resolves_at_most_raise.
  apply resolves_at_most_subscript.
Qed.

Lemma resolves_at_most_client_login (env : environment) (args : login_args) :
  resolves_at_most 0 (client_login_call env args).
Proof.
  intros w. unfold client_login_call.
  destruct (client_login env (trace w) (settings w) args); reflexivity.
Qed.

Lemma resolves_at_most_load_settings (file : string) :
  resolves_at_most 0 (client_load_settings file).
Proof.
  intros w. unfold client_load_settings.
  destruct (files w !! file); reflexivity.
Qed.

Lemma resolves_at_most_get_settings : resolves_at_most 0 client_get_settings.
Proof. intros w. reflexivity. Qed.

Lemma resolves_at_most_set_settings (s : gmap string pyval) :
  resolves_at_most 0 (client_set_settings s).
Proof. intros w. reflexivity. Qed.

Lemma resolves_at_most_set_uuids (u : pyval) :
  resolves_at_most 0 (client_set_uuids u).
Proof. intros w. reflexivity. Qed.

Lemma resolves_at_most_dump_settings (env : environment) (file : string) :
  resolves_at_most 0 (client_dump_settings env file).
Proof.
  intros w. unfold client_dump_settings.
  destruct (dump_settings env (trace w) file); reflexivity.
Qed.

Create HintDb resolves.
#[local] Hint Resolve resolves_at_most_ret resolves_at_most_raise
  resolves_at_most_lift resolves_at_most_logger resolves_at_most_sleep
  resolves_at_most_subscript resolves_at_most_subscript_value
  resolves_at_most_client_login resolves_at_most_load_settings
  resolves_at_most_get_settings resolves_at_most_set_settings
  resolves_at_most_set_uuids resolves_at_most_dump_settings : resolves.

Ltac resolves_steps :=
  repeat first
    [ apply resolves_at_most_seq; [|intros ?]
    | apply resolves_at_most_call; exact I
    | solve [auto with resolves] ].

(** A run of the body of [login] resolves no identifier. *)
Lemma login_body_resolves_nothing (env : environment)
    (cfg : configuration_dict) (method : string) :
  resolves_at_most 0 (login_body env cfg method).
Proof.
  unfold login_body. resolves_steps.
  - unfold build_login_args. destruct (two_fa_enabled cfg).
    + unfold client_totp_generate_code. resolves_steps.
    + resolves_steps.
  - intros w.
    destruct (String.eqb method "session" && os_path_exists (session_file cfg) w).
    + revert w. resolves_steps.
    + destruct (String.eqb method "relogin"); revert w.
      * unfold relogin. resolves_steps.
      * resolves_steps.
Qed.

(** The decorator runs its method at most twice, around a login that
    resolves nothing. *)
Lemma exceptions_handler_resolves {A} (n : nat)
    (self_login : string -> M string) (method : M A) :
  (forall mode, resolves_at_most 0 (self_login mode)) ->
  resolves_at_most n method ->
  resolves_at_most (n + n) (exceptions_handler self_login method).
Proof.
  intros Hlogin Hm w. unfold exceptions_handler.
  pose proof (Hm w) as H1.
  destruct (method w) as [[a|e] w1]; cbn [snd] in *; [lia|].
  assert (Hretry : forall c : M A,
             resolves_at_most n c ->
             (resolutions (trace (snd (c w1)))
              <= n + n + resolutions (trace w))%nat).
  { intros c Hc. specialize (Hc w1). lia. }
  destruct e; cbn [snd]; try lia;
    apply Hretry;
    repeat (apply (resolves_at_most_bind 0 n);
            [first [apply Hlogin | auto with resolves] | intros _]);
    exact Hm.
Qed.

Lemma resolves_at_most_any_call {A} (ev : event)
    (answer : list event -> result A) :
  resolves_at_most 1 (call ev answer).
Proof.
  intros w. unfold call, record, resolutions. cbn [snd trace List.filter].
  destruct ev; cbn [length]; lia.
Qed.

Lemma resolves_at_most_try_except {A} (n : nat) (body : M A)
    (handler : exn -> M A) :
  resolves_at_most n body ->
  (forall e, resolves_at_most 0 (handler e)) ->
  resolves_at_most n (try_except_media body handler).
Proof.
  intros Hb Hh w. unfold try_except_media. specialize (Hb w).
  destruct (body w) as [[a|e] w1]; cbn [snd] in *; [lia|].
  destruct e; cbn [snd]; try lia;
    match goal with
    | |- context [handler ?e w1] => specialize (Hh e w1)
    end; lia.
Qed.

(** A run of the body of [get_post_content] resolves the identifier once
    at most. *)
Lemma get_post_content_body_resolves_once (env : environment)
    (shortcode : string) (error_count : Z) :
  resolves_at_most 1 (get_post_content_body env shortcode error_count).
Proof.
  unfold get_post_content_body.
  destruct (3 <? error_count)%Z.
  { apply (resolves_at_most_bind 0 1); [auto with resolves|].
    intros _ w. cbn. lia. }
  apply (resolves_at_most_bind 0 1); [auto with resolves|]. intros _.
  apply resolves_at_most_try_except.
  - apply (resolves_at_most_bind 1 0);
      [apply resolves_at_most_any_call|].
    intros media_pk. unfold client_media_info, makedirs, listdir, run_download.
    cbv zeta. resolves_steps.
    + match goal with
      | |- resolves_at_most 0 (match ?x with _ => _ end) => destruct x
      end; resolves_steps.
    + match goal with
      | |- resolves_at_most 0 (match ?x with _ => _ end) => destruct x
      end; unfold response; resolves_steps;
        destruct (truthy _); resolves_steps.
  - intros e. resolves_steps.
Qed.

(** One call of the decorated [get_post_content] resolves the identifier
    twice at most: the decorator never runs the body a third time. *)
Lemma get_post_content_resolves_twice (env : environment)
    (cfg : configuration_dict) (depth : nat) (shortcode : string)
    (error_count : Z) (w : world) :
  (resolutions
     (trace (snd (get_post_content env cfg depth shortcode error_count w)))
   <= 2 + resolutions (trace w))%nat.
Proof.
  assert (Hlogin : forall d mode, resolves_at_most 0 (login env cfg d mode)).
  { induction d as [|d IH]; intros mode; cbn [login].
    - auto with resolves.
    - apply (exceptions_handler_resolves 0); [exact IH|].
      apply login_body_resolves_nothing. }
  apply (exceptions_handler_resolves 1 (login env cfg depth)
           (get_post_content_body env shortcode error_count)).
  - apply Hlogin.
  - apply get_post_content_body_resolves_once.
Qed.

(** The body of [login] can run three times in one call of the decorated
    [login]: the session is rejected at the first credential login, the
    recovery is the decorated [login] in renew mode, whose body runs, and
    the decorator then runs the body a second time. *)
Example login_body_runs_three_times :
  let run := login session_rejected_once sample_configuration 2 "session"
               fresh_world in
  fst run = Ok "logged_in" /\ credential_logins (trace (snd run)) = 3%nat.
Proof. vm_compute. split; reflexivity. Qed.

(** While every credential login is rejected, the recovery of the decorated
    [login] calls the decorated [login] again, as deep as the call stack
    allows. *)
Example login_recursion_ends_with_the_stack :
  let run := login session_always_rejected sample_configuration 5 "session"
               fresh_world in
  fst run = Raise RecursionError /\ credential_logins (trace (snd run)) = 5%nat.
Proof. vm_compute. split; reflexivity. Qed.




(** ** The sentences of the specification where they do hold *)

(** After a timeout of the resolution the body does run a second time. *)
Example retried_once_after_timeout :
  retried_once flaky_resolution sample_configuration 1 "ABC123" 0 fresh_world.
Proof.
  intros e w1 Hbody _. vm_compute. reflexivity.
Qed.

(** A refused credential login is outside the classification and leaves
    [login] as it left the body. *)
Example login_never_retries_when_refused :
  login_never_retries (login_refused LoginRequired) sample_configuration 1
    "session" fresh_world.
Proof.
  intros e w1 Hbody. rewrite <- Hbody. vm_compute. reflexivity.
Qed.

(** The first renewal of a client that has no session file does change what
    is persisted. *)
Example renew_changes_persisted_session_without_file :
  renew_changes_persisted_session calm sample_configuration 1 fresh_world.
Proof.
  unfold renew_changes_persisted_session. vm_compute. discriminate.
Qed.

(** ** The calls a computation adds: lemmas *)

Lemma measure_app (weight : event -> nat) (tr1 tr2 : list event) :
  measure weight (tr1 ++ tr2)%list = (measure weight tr1 + measure weight tr2)%nat.
Proof.
  induction tr1 as [|ev tr1 IH]; cbn [measure foldr app]; [reflexivity|].
  fold (measure weight (tr1 ++ tr2)%list). fold (measure weight tr1). lia.
Qed.

Lemma credential_logins_measure (tr : list event) :
  credential_logins tr = measure credential_login_weight tr.
Proof.
  unfold credential_logins.
  induction tr as [|ev tr IH]; [reflexivity|].
  cbn [List.filter measure foldr]. fold (measure credential_login_weight tr).
  destruct ev; cbn [length credential_login_weight]; lia.
Qed.

Lemma downloads_measure (tr : list event) :
  downloads tr = measure download_weight tr.
Proof.
  unfold downloads.
  induction tr as [|ev tr IH]; [reflexivity|].
  cbn [List.filter measure foldr]. fold (measure download_weight tr).
  destruct ev; cbn [length download_weight]; lia.
Qed.

Section Adds.

Variable allowed : event -> bool.
Variable weight : event -> nat.

Lemma adds_nothing {A} (c : M A) :
  (forall w, trace (snd (c w)) = trace w) -> adds allowed weight 0 c.
Proof.
  intros H w. exists []. rewrite H. repeat split; [constructor | cbn; lia].
Qed.

Lemma adds_event {A} (n : nat) (ev : event) (c : M A) :
  (forall w, trace (snd (c w)) = ev :: trace w) ->
  allowed ev = true ->
  (weight ev <= n)%nat ->
  adds allowed weight n c.
Proof.
  intros H Hev Hn w. exists [ev]. rewrite H.
  repeat split; [repeat constructor; exact Hev | cbn; lia].
Qed.

Lemma adds_weaken {A} (n m : nat) (c : M A) :
  adds allowed weight n c -> (n <= m)%nat -> adds allowed weight m c.
Proof.
  intros H Hle w. destruct (H w) as (new & Htr & Hall & Hm).
  exists new. repeat split; [assumption..|lia].
Qed.

Lemma adds_bind {A B} (n m : nat) (c : M A) (k : A -> M B) :
  adds allowed weight n c ->
  (forall a, adds allowed weight m (k a)) ->
  adds allowed weight (n + m) (x <- c ;; k x).
Proof.
  intros Hc Hk w. unfold bind.
  destruct (Hc w) as (new1 & Htr1 & Hall1 & Hm1).
  destruct (c w) as [[a|e] w1]; cbn [snd] in *.
  - destruct (Hk a w1) as (new2 & Htr2 & Hall2 & Hm2).
    exists (new2 ++ new1)%list. rewrite Htr2, Htr1, app_assoc.
    repeat split.
    + apply Forall_app. split; assumption.
    + rewrite measure_app. lia.
  - exists new1. repeat split; [assumption..|lia].
Qed.

Lemma adds_seq {A B} (n : nat) (c : M A) (k : A -> M B) :
  adds allowed weight 0 c ->
  (forall a, adds allowed weight n (k a)) ->
  adds allowed weight n (x <- c ;; k x).
Proof. intros Hc Hk. apply (adds_bind 0 n); assumption. Qed.

Lemma adds_ret {A} (a : A) : adds allowed weight 0 (ret a).
Proof. now apply adds_nothing. Qed.

Lemma adds_raise {A} (e : exn) : adds allowed weight 0 (@raise A e).
Proof. now apply adds_nothing. Qed.

Lemma adds_lift {A} (r : result A) : adds allowed weight 0 (lift r).
Proof. now apply adds_nothing. Qed.

Lemma adds_logger (l : level) (msg : string) :
  adds allowed weight 0 (logger l msg).
Proof. now apply adds_nothing. Qed.

Lemma adds_subscript (d : gmap string pyval) (k : string) :
  adds allowed weight 0 (subscript d k).
Proof.
  unfold subscript. destruct (d !! k); [apply adds_ret | apply adds_raise].
Qed.

Lemma adds_subscript_value (v : pyval) (k : string) :
  adds allowed weight 0 (subscript_value v k).
Proof. destruct v; try apply adds_raise. apply adds_subscript. Qed.

Lemma adds_call {A} (n : nat) (ev : event) (answer : list event -> result A) :
  allowed ev = true -> (weight ev <= n)%nat ->
  adds allowed weight n (call ev answer).
Proof. intros. now apply (adds_event n ev). Qed.

Lemma adds_try_except {A} (n : nat) (body : M A) (handler : exn -> M A) :
  adds allowed weight n body ->
  (forall e, adds allowed weight 0 (handler e)) ->
  adds allowed weight n (try_except_media body handler).
Proof.
  intros Hb Hh w. unfold try_except_media.
  destruct (Hb w) as (new1 & Htr1 & Hall1 & Hm1).
  destruct (body w) as [[a|e] w1]; cbn [snd] in *;
    [exists new1; repeat split; assumption|].
  assert (Hdone : exists new,
             trace w1 = (new ++ trace w)%list /\
             Forall (fun ev => allowed ev = true) new /\
             (measure weight new <= n)%nat)
    by (exists new1; repeat split; assumption).
  assert (Hcaught : exists new,
             trace (snd (handler e w1)) = (new ++ trace w)%list /\
             Forall (fun ev => allowed ev = true) new /\
             (measure weight new <= n)%nat).
  { destruct (Hh e w1) as (new2 & Htr2 & Hall2 & Hm2).
    exists (new2 ++ new1)%list. rewrite Htr2, Htr1, app_assoc.
    repeat split; [apply Forall_app; split; assumption|].
    rewrite measure_app. lia. }
  destruct e; assumption.
Qed.

(** The decorator around a method that adds [n], with a login that adds
    [l] and waits that weigh [s] at most. *)
Lemma adds_exceptions_handler {A} (n l s : nat)
    (self_login : string -> M string) (method : M A) :
  allowed (EvSleep 3600) = true ->
  allowed (EvSleep 60) = true ->
  (weight (EvSleep 3600) <= s)%nat ->
  (weight (EvSleep 60) <= s)%nat ->
  (forall mode, adds allowed weight l (self_login mode)) ->
  adds allowed weight n method ->
  adds allowed weight (n + (s + (l + n))) (exceptions_handler self_login method).
Proof.
  intros Ha1 Ha2 Hw1 Hw2 Hlogin Hm w. unfold exceptions_handler.
  destruct (Hm w) as (new1 & Htr1 & Hall1 & Hm1).
  destruct (method w) as [[a|e] w1]; cbn [snd] in *;
    [exists new1; repeat split; [assumption..|lia]|].
  assert (Hretry : forall c : M A,
             adds allowed weight (s + (l + n)) c ->
             exists new,
               trace (snd (c w1)) = (new ++ trace w)%list /\
               Forall (fun ev => allowed ev = true) new /\
               (measure weight new <= n + (s + (l + n)))%nat).
  { intros c Hc. destruct (Hc w1) as (new2 & Htr2 & Hall2 & Hm2).
    exists (new2 ++ new1)%list. rewrite Htr2, Htr1, app_assoc.
    repeat split; [apply Forall_app; split; assumption|].
    rewrite measure_app. lia. }
  assert (Hsleep : forall seconds,
             allowed (EvSleep seconds) = true ->
             (weight (EvSleep seconds) <= s)%nat ->
             adds allowed weight s (time_sleep seconds)).
  { intros seconds Ha Hw. now apply (adds_event s (EvSleep seconds)). }
  assert (Hrest : adds allowed weight (l + n) (self_login "relogin" ;; method)).
  { apply adds_bind; [apply Hlogin | intros _; exact Hm]. }
  assert (Hrest' : adds allowed weight (l + n) (self_login "session" ;; method)).
  { apply adds_bind; [apply Hlogin | intros _; exact Hm]. }
  destruct e;
    try (exists new1; repeat split; [assumption..|lia]);
    apply Hretry; apply adds_seq; try apply adds_logger; intros _.
  - eapply adds_weaken; [exact Hrest | lia].
  - apply adds_bind; [now apply Hsleep | intros _; exact Hrest'].
  - apply adds_bind; [now apply Hsleep | intros _; exact Hrest].
  - apply adds_bind; [now apply Hsleep | intros _].
    eapply adds_weaken; [exact Hm | lia].
  - apply adds_bind; [now apply Hsleep | intros _].
    eapply adds_weaken; [exact Hm | lia].
  - apply adds_bind; [now apply Hsleep | intros _].
    eapply adds_weaken; [exact Hm | lia].
Qed.

End Adds.

Lemma adds_allowed_more {A} (allowed allowed' : event -> bool)
    (weight : event -> nat) (n : nat) (c : M A) :
  (forall ev, allowed ev = true -> allowed' ev = true) ->
  adds allowed weight n c -> adds allowed' weight n c.
Proof.
  intros Hsub H w. destruct (H w) as (new & Htr & Hall & Hm).
  exists new. repeat split; [assumption| |assumption].
  eapply Forall_impl; [exact Hall | exact Hsub].
Qed.

Lemma adds_bind_post {A B} (allowed : event -> bool) (weight : event -> nat)
    (n m : nat) (c : M A) (k : A -> M B) (Q : A -> Prop) :
  adds allowed weight n c ->
  (forall w a w', c w = (Ok a, w') -> Q a) ->
  (forall a, Q a -> adds allowed weight m (k a)) ->
  adds allowed weight (n + m) (x <- c ;; k x).
Proof.
  intros Hc HQ Hk w. unfold bind.
  destruct (Hc w) as (new1 & Htr1 & Hall1 & Hm1).
  destruct (c w) as [[a|e] w1] eqn:Hcw; cbn [snd] in *.
  - destruct (Hk a (HQ _ _ _ Hcw) w1) as (new2 & Htr2 & Hall2 & Hm2).
    exists (new2 ++ new1)%list. rewrite Htr2, Htr1, app_assoc.
    repeat split.
    + apply Forall_app. split; assumption.
    + rewrite measure_app. lia.
  - exists new1. repeat split; [assumption..|lia].
Qed.

(** ** What [login] adds to the trace *)

Lemma build_login_args_credentials (env : environment)
    (cfg : configuration_dict) (w w' : world) (args : login_args) :
  build_login_args env cfg w = (Ok args, w') ->
  arg_username args = username cfg /\ arg_password args = password cfg.
Proof.
  unfold build_login_args. destruct (two_fa_enabled cfg).
  - intros H. apply bind_returns in H as (code & ? & _ & H).
    apply bind_returns in H as (? & ? & _ & H).
    unfold ret in H. injection H as <- _. split; reflexivity.
  - unfold ret. intros [= <- _]. split; reflexivity.
Qed.

Section LoginAdds.

Variable env : environment.
Variable cfg : configuration_dict.
Variable weight : event -> nat.

(** What one credential login weighs at most; every other call of the body
    weighs nothing. *)
Variable b : nat.
Hypothesis weight_body :
  forall ev,
    login_body_event cfg ev = true ->
    (weight ev <= match ev with EvClientLogin _ => b | _ => O end)%nat.

Lemma adds_build_login_args :
  adds (login_body_event cfg) weight 0 (build_login_args env cfg).
Proof.
  unfold build_login_args. destruct (two_fa_enabled cfg) eqn:H2fa.
  - assert (Hev : login_body_event cfg (EvTotpGenerateCode (two_fa_seed cfg))
                  = true).
    { cbn. rewrite H2fa, String.eqb_refl. reflexivity. }
    apply adds_seq.
    + apply adds_call; [exact Hev | exact (weight_body _ Hev)].
    + intros code. apply adds_seq; [apply adds_logger|].
      intros _. apply adds_ret.
  - apply adds_ret.
Qed.

Lemma adds_client_login_call (args : login_args) :
  arg_username args = username cfg /\ arg_password args = password cfg ->
  adds (login_body_event cfg) weight b (client_login_call env args).
Proof.
  intros [Hu Hp].
  assert (Hev : login_body_event cfg (EvClientLogin args) = true).
  { cbn. rewrite Hu, Hp, !String.eqb_refl. reflexivity. }
  apply (adds_event _ _ b (EvClientLogin args));
    [|exact Hev | exact (weight_body _ Hev)].
  intros w. unfold client_login_call.
  destruct (client_login env (trace w) (settings w) args); reflexivity.
Qed.

Lemma adds_client_dump_settings :
  adds (login_body_event cfg) weight 0
    (client_dump_settings env (session_file cfg)).
Proof.
  assert (Hev : login_body_event cfg (EvDumpSettings (session_file cfg)) = true)
    by apply String.eqb_refl.
  apply (adds_event _ _ 0 (EvDumpSettings (session_file cfg)));
    [|exact Hev | exact (weight_body _ Hev)].
  intros w. unfold client_dump_settings.
  destruct (dump_settings env (trace w) (session_file cfg)); reflexivity.
Qed.

Lemma adds_client_load_settings :
  adds (login_body_event cfg) weight 0
    (client_load_settings (session_file cfg)).
Proof.
  assert (Hev : login_body_event cfg (EvLoadSettings (session_file cfg)) = true)
    by apply String.eqb_refl.
  apply (adds_event _ _ 0 (EvLoadSettings (session_file cfg)));
    [|exact Hev | exact (weight_body _ Hev)].
  intros w. unfold client_load_settings.
  destruct (files w !! session_file cfg); reflexivity.
Qed.

Lemma adds_relogin (args : login_args) :
  arg_username args = username cfg /\ arg_password args = password cfg ->
  adds (login_body_event cfg) weight b (relogin env cfg args).
Proof.
  intros Hargs. unfold relogin.
  apply adds_seq; [apply adds_logger | intros _].
  apply adds_seq.
  { apply (adds_event _ _ 0 EvGetSettings);
      [reflexivity | reflexivity | exact (weight_body EvGetSettings eq_refl)]. }
  intros old_session. apply adds_seq.
  { assert (Hev : login_body_event cfg (EvSetSettings ∅) = true)
      by (apply bool_decide_eq_true_2; reflexivity).
    apply (adds_event _ _ 0 (EvSetSettings ∅));
      [reflexivity | exact Hev | exact (weight_body _ Hev)]. }
  intros _. apply adds_seq; [apply adds_subscript | intros uuids].
  apply adds_seq.
  { apply (adds_event _ _ 0 (EvSetUuids uuids));
      [reflexivity | reflexivity | exact (weight_body (EvSetUuids uuids) eq_refl)]. }
  intros _. eapply adds_weaken.
  - apply (adds_bind _ _ b 0); [now apply adds_client_login_call|].
    intros _. apply adds_client_dump_settings.
  - lia.
Qed.

Lemma login_body_adds (method : string) :
  adds (login_body_event cfg) weight b (login_body env cfg method).
Proof.
  unfold login_body.
  apply adds_seq; [apply adds_logger | intros _].
  apply (adds_bind_post _ _ 0 b _ _
           (fun args => arg_username args = username cfg /\
                        arg_password args = password cfg)).
  - apply adds_build_login_args.
  - intros w args w'. apply build_login_args_credentials.
  - intros args Hargs. eapply adds_weaken.
    + apply (adds_bind _ _ b 0).
      * intros w.
        destruct (String.eqb method "session"
                  && os_path_exists (session_file cfg) w).
        { revert w. apply adds_seq; [apply adds_logger | intros _].
          apply adds_seq; [apply adds_client_load_settings | intros _].
          now apply adds_client_login_call. }
        destruct (String.eqb method "relogin"); revert w.
        { now apply adds_relogin. }
        apply adds_seq; [apply adds_logger | intros _].
        eapply adds_weaken.
        { apply (adds_bind _ _ b 0); [now apply adds_client_login_call|].
          intros _. apply adds_client_dump_settings. }
        lia.
      * intros _. apply adds_seq; [apply adds_logger | intros _].
        apply adds_seq.
        { apply adds_call;
            [reflexivity | exact (weight_body EvGetTimelineFeed eq_refl)]. }
        intros _. apply adds_seq; [apply adds_logger | intros _].
        apply adds_ret.
    + lia.
Qed.

End LoginAdds.

Lemma login_body_event_login_event (cfg : configuration_dict) (ev : event) :
  login_body_event cfg ev = true -> login_event cfg ev = true.
Proof. intros H. unfold login_event. now rewrite H. Qed.

(** The decorated [login], [depth] calls deep: each level runs the body
    twice at most and waits once at most. *)
Lemma login_adds (env : environment) (cfg : configuration_dict)
    (weight : event -> nat) (b s : nat) :
  (forall ev,
     login_body_event cfg ev = true ->
     (weight ev <= match ev with EvClientLogin _ => b | _ => O end)%nat) ->
  (weight (EvSleep 3600) <= s)%nat ->
  (weight (EvSleep 60) <= s)%nat ->
  forall depth method,
    adds (login_event cfg) weight (depth * (b + (s + b)))
      (login env cfg depth method).
Proof.
  intros Hbody Hs1 Hs2.
  induction depth as [|d IH]; intros method; cbn [login].
  - apply adds_raise.
  - eapply adds_weaken.
    + apply (adds_exceptions_handler _ _ b (d * (b + (s + b))) s);
        [reflexivity | reflexivity | exact Hs1 | exact Hs2 | exact IH |].
      eapply adds_allowed_more; [apply login_body_event_login_event|].
      now apply login_body_adds.
    + rewrite Nat.mul_succ_l. lia.
Qed.

Section FetchAdds.

Variable env : environment.
Variable shortcode : string.
Variable weight : event -> nat.

(** What one download weighs at most; every other call of the body weighs
    nothing. *)
Variable b : nat.
Hypothesis weight_body :
  forall ev,
    fetch_body_event shortcode ev = true ->
    (weight ev <= match ev with EvDownload _ _ _ => b | _ => O end)%nat.

Lemma adds_response (info : gmap string pyval) (st : option string)
    (fallback : string) :
  adds (fetch_body_event shortcode) weight 0
    (response shortcode info st fallback).
Proof.
  unfold response.
  apply adds_seq; [apply adds_subscript | intros user].
  apply adds_seq; [apply adds_subscript_value | intros name].
  apply adds_seq; [apply adds_subscript | intros pt].
  apply adds_seq; [|intros ty; apply adds_ret].
  destruct (truthy pt); [apply adds_subscript | apply adds_ret].
Qed.

Lemma get_post_content_body_adds (error_count : Z) :
  adds (fetch_body_event shortcode) weight b
    (get_post_content_body env shortcode error_count).
Proof.
  unfold get_post_content_body.
  destruct (3 <? error_count)%Z.
  { apply (adds_weaken _ _ 0 b); [|lia].
    apply adds_seq; [apply adds_logger | intros _; apply adds_raise]. }
  apply adds_seq; [apply adds_logger | intros _].
  apply adds_try_except.
  2:{ intros e. apply adds_seq; [apply adds_logger | intros _; apply adds_ret]. }
  assert (Hpk : fetch_body_event shortcode (EvMediaPkFromCode shortcode) = true)
    by apply String.eqb_refl.
  apply adds_seq.
  { apply adds_call; [exact Hpk | exact (weight_body _ Hpk)]. }
  intros media_pk. apply adds_seq.
  { apply adds_call;
      [reflexivity | exact (weight_body (EvMediaInfo media_pk) eq_refl)]. }
  intros info. apply adds_seq; [apply adds_subscript | intros mt].
  cbv zeta.
  apply adds_seq; [apply adds_lift | intros dm].
  apply adds_seq; [apply adds_subscript | intros user].
  apply adds_seq; [apply adds_subscript_value | intros name].
  apply adds_seq.
  { apply adds_call;
      [reflexivity | exact (weight_body (EvMakedirs (DataDir name)) eq_refl)]. }
  intros _. apply (adds_weaken _ _ (b + 0) b); [|lia].
  apply (adds_bind _ _ b 0).
  - destruct dm as [strategy|].
    + apply (adds_weaken _ _ (b + 0) b); [|lia].
      apply (adds_bind _ _ b 0); [|intros _; apply adds_ret].
      apply adds_call;
        [reflexivity
        | exact (weight_body (EvDownload strategy media_pk (DataDir name))
                   eq_refl)].
    + apply (adds_weaken _ _ 0 b); [|lia].
      apply adds_seq; [apply adds_logger | intros _; apply adds_ret].
  - intros st. apply adds_seq.
    { apply adds_call;
        [reflexivity | exact (weight_body (EvListdir (DataDir name)) eq_refl)]. }
    intros listing.
    destruct listing;
      (apply adds_seq; [apply adds_logger | intros _; apply adds_response]).
Qed.

End FetchAdds.

Lemma get_post_content_adds (env : environment) (cfg : configuration_dict)
    (weight : event -> nat) (bd bl s : nat) (shortcode : string)
    (error_count : Z) (depth : nat) :
  (forall ev,
     fetch_body_event shortcode ev = true ->
     (weight ev <= match ev with EvDownload _ _ _ => bd | _ => O end)%nat) ->
  (forall ev,
     login_body_event cfg ev = true ->
     (weight ev <= match ev with EvClientLogin _ => bl | _ => O end)%nat) ->
  (weight (EvSleep 3600) <= s)%nat ->
  (weight (EvSleep 60) <= s)%nat ->
  adds (fetch_event cfg shortcode) weight
    (bd + (s + (depth * (bl + (s + bl)) + bd)))
    (get_post_content env cfg depth shortcode error_count).
Proof.
  intros Hfetch Hlogin Hs1 Hs2. unfold get_post_content.
  apply adds_exceptions_handler;
    [reflexivity | reflexivity | exact Hs1 | exact Hs2 | |].
  - intros mode.
    apply (adds_allowed_more (login_event cfg)).
    + intros ev H. unfold fetch_event. rewrite H. apply orb_true_r.
    + now apply login_adds.
  - apply (adds_allowed_more (fetch_body_event shortcode)).
    + intros ev H. unfold fetch_event. now rewrite H.
    + now apply get_post_content_body_adds.
Qed.

Lemma adds_allowed {A} (allowed : event -> bool) (weight : event -> nat)
    (n : nat) (c : M A) (w : world) :
  adds allowed weight n c ->
  exists new,
    trace (snd (c w)) = (new ++ trace w)%list /\
    Forall (fun ev => allowed ev = true) new.
Proof. intros H. destruct (H w) as (new & Htr & Hall & _). eauto. Qed.

Lemma adds_measure {A} (allowed : event -> bool) (weight : event -> nat)
    (n : nat) (c : M A) (w : world) :
  adds allowed weight n c ->
  (measure weight (trace (snd (c w))) <= measure weight (trace w) + n)%nat.
Proof.
  intros H. destruct (H w) as (new & Htr & _ & Hm).
  rewrite Htr, measure_app. lia.
Qed.

(** X1. [login] talks to the client and to the session file and to nothing
    else. Whatever the outside answers, however deep the recovery goes, a
    call of the decorated [login] keeps the trace it found and adds to it
    only: reads, resets to empty and device-identity updates of the
    settings, loads and writes of the configured session file, credential
    logins with the configured user and password, liveness checks, waits of
    3600 or 60 seconds, and a code for the configured seed when two-factor
    authentication is on. It resolves no identifier, fetches no metadata,
    downloads nothing, touches no directory, reads no vault and creates no
    client. *)
Theorem login_calls_only_the_client (env : environment)
    (cfg : configuration_dict) (depth : nat) (method : string) (w : world) :
  exists new,
    trace (snd (login env cfg depth method w)) = (new ++ trace w)%list /\
    Forall (fun ev => login_event cfg ev = true) new.
Proof.
  apply (adds_allowed _ no_weight (depth * (0 + (0 + 0)))).
  apply login_adds.
  - intros ev _. unfold no_weight. lia.
  - unfold no_weight. lia.
  - unfold no_weight. lia.
Qed.

(** X2. One call of the decorated [login] makes at most [2 * depth] credential
    logins and sleeps at most [3600 * depth] seconds, [depth] being the
    depth the recovery can reach. *)
Theorem login_bounded (env : environment) (cfg : configuration_dict)
    (depth : nat) (method : string) (w : world) :
  (credential_logins (trace (snd (login env cfg depth method w)))
   <= credential_logins (trace w) + 2 * depth)%nat /\
  (slept (trace (snd (login env cfg depth method w)))
   <= slept (trace w) + 3600 * depth)%nat.
Proof.
  split.
  - rewrite !credential_logins_measure.
    pose proof (adds_measure _ _ _ _ w
                  (login_adds env cfg credential_login_weight 1 0
                     ltac:(intros ev _; destruct ev; cbn; lia)
                     ltac:(cbn; lia) ltac:(cbn; lia) depth method)) as H.
    lia.
  - unfold slept.
    pose proof (adds_measure _ _ _ _ w
                  (login_adds env cfg sleep_weight 0 3600
                     ltac:(intros ev Hev; destruct ev; try discriminate Hev;
                           cbn; lia)
                     ltac:(unfold sleep_weight; lia)
                     ltac:(unfold sleep_weight; lia) depth method)) as H.
    lia.
Qed.

(** X3. [get_post_content] adds to those calls only the resolution of the
    identifier it was given, metadata fetches, directory creations,
    downloads and listings; it reads no vault, creates no client and
    resolves no other identifier. *)
Theorem get_post_content_calls (env : environment) (cfg : configuration_dict)
    (depth : nat) (shortcode : string) (error_count : Z) (w : world) :
  exists new,
    trace (snd (get_post_content env cfg depth shortcode error_count w))
    = (new ++ trace w)%list /\
    Forall (fun ev => fetch_event cfg shortcode ev = true) new.
Proof.
  apply (adds_allowed _ no_weight (0 + (0 + (depth * (0 + (0 + 0)) + 0)))).
  apply get_post_content_adds.
  - intros ev _. unfold no_weight. lia.
  - intros ev _. unfold no_weight. lia.
  - unfold no_weight. lia.
  - unfold no_weight. lia.
Qed.

(** X4. One call of the decorated [get_post_content] downloads twice at most,
    makes at most [2 * depth] credential logins and sleeps at most
    [3600 * (depth + 1)] seconds. *)
Theorem get_post_content_bounded (env : environment)
    (cfg : configuration_dict) (depth : nat) (shortcode : string)
    (error_count : Z) (w : world) :
  let w' := snd (get_post_content env cfg depth shortcode error_count w) in
  (downloads (trace w') <= downloads (trace w) + 2)%nat /\
  (credential_logins (trace w') <= credential_logins (trace w) + 2 * depth)%nat /\
  (slept (trace w') <= slept (trace w) + 3600 * (depth + 1))%nat.
Proof.
  intros w'. subst w'. split; [|split].
  - rewrite !downloads_measure.
    pose proof (adds_measure _ _ _ _ w
                  (get_post_content_adds env cfg download_weight 1 0 0
                     shortcode error_count depth
                     ltac:(intros ev _; destruct ev; cbn; lia)
                     ltac:(intros ev Hev; destruct ev; try discriminate Hev;
                           cbn; lia)
                     ltac:(cbn; lia) ltac:(cbn; lia))) as H.
    lia.
  - rewrite !credential_logins_measure.
    pose proof (adds_measure _ _ _ _ w
                  (get_post_content_adds env cfg credential_login_weight 0 1 0
                     shortcode error_count depth
                     ltac:(intros ev Hev; destruct ev; try discriminate Hev;
                           cbn; lia)
                     ltac:(intros ev _; destruct ev; cbn; lia)
                     ltac:(cbn; lia) ltac:(cbn; lia))) as H.
    lia.
  - unfold slept.
    pose proof (adds_measure _ _ _ _ w
                  (get_post_content_adds env cfg sleep_weight 0 0 3600
                     shortcode error_count depth
                     ltac:(intros ev Hev; destruct ev; try discriminate Hev;
                           cbn; lia)
                     ltac:(intros ev Hev; destruct ev; try discriminate Hev;
                           cbn; lia)
                     ltac:(unfold sleep_weight; lia)
                     ltac:(unfold sleep_weight; lia))) as H.
    lia.
Qed.

(** ** What a computation leaves as it is: lemmas *)

Section Keeps.

Variable I : world -> world -> Prop.
Hypothesis I_refl : forall w, I w w.
Hypothesis I_trans : forall w1 w2 w3, I w1 w2 -> I w2 w3 -> I w1 w3.
Hypothesis I_logger : forall l msg w, I w (snd (logger l msg w)).
Hypothesis I_record : forall ev w, I w (record ev w).

Lemma keeps_ret {A} (a : A) : keeps I (ret a).
Proof. intros w. apply I_refl. Qed.

Lemma keeps_raise {A} (e : exn) : keeps I (@raise A e).
Proof. intros w. apply I_refl. Qed.

Lemma keeps_lift {A} (r : result A) : keeps I (lift r).
Proof. intros w. apply I_refl. Qed.

Lemma keeps_logger (l : level) (msg : string) : keeps I (logger l msg).
Proof. intros w. apply I_logger. Qed.

Lemma keeps_call {A} (ev : event) (answer : list event -> result A) :
  keeps I (call ev answer).
Proof. intros w. apply I_record. Qed.

Lemma keeps_time_sleep (seconds : Z) : keeps I (time_sleep seconds).
Proof. intros w. apply I_record. Qed.

Lemma keeps_subscript (d : gmap string pyval) (k : string) :
  keeps I (subscript d k).
Proof.
  unfold subscript. destruct (d !! k); [apply keeps_ret | apply keeps_raise].
Qed.

Lemma keeps_subscript_value (v : pyval) (k : string) :
  keeps I (subscript_value v k).
Proof. destruct v; try apply keeps_raise. apply keeps_subscript. Qed.

Lemma keeps_bind {A B} (c : M A) (k : A -> M B) :
  keeps I c -> (forall a, keeps I (k a)) -> keeps I (x <- c ;; k x).
Proof.
  intros Hc Hk w. unfold bind. specialize (Hc w).
  destruct (c w) as [[a|e] w1]; cbn [snd] in *; [|exact Hc].
  eapply I_trans; [exact Hc | apply Hk].
Qed.

Lemma keeps_try_except {A} (body : M A) (handler : exn -> M A) :
  keeps I body -> (forall e, keeps I (handler e)) ->
  keeps I (try_except_media body handler).
Proof.
  intros Hb Hh w. unfold try_except_media. specialize (Hb w).
  destruct (body w) as [[a|e] w1]; cbn [snd] in *; [exact Hb|].
  assert (Hcaught : I w (snd (handler e w1)))
    by (eapply I_trans; [exact Hb | apply Hh]).
  destruct e; assumption.
Qed.

Lemma keeps_exceptions_handler {A} (self_login : string -> M string)
    (method : M A) :
  (forall mode, keeps I (self_login mode)) ->
  keeps I method ->
  keeps I (exceptions_handler self_login method).
Proof.
  intros Hlogin Hm w. unfold exceptions_handler. pose proof (Hm w) as H1.
  destruct (method w) as [[a|e] w1]; cbn [snd] in *; [exact H1|].
  assert (Hretry : forall c : M A, keeps I c -> I w (snd (c w1)))
    by (intros c Hc; eapply I_trans; [exact H1 | apply Hc]).
  destruct e; try exact H1; apply Hretry;
    repeat (apply keeps_bind;
            [first [apply keeps_logger | apply keeps_time_sleep | apply Hlogin]
            | intros _]);
    exact Hm.
Qed.

Lemma keeps_response (shortcode : string) (info : gmap string pyval)
    (st : option string) (fallback : string) :
  keeps I (response shortcode info st fallback).
Proof.
  unfold response.
  apply keeps_bind; [apply keeps_subscript | intros user].
  apply keeps_bind; [apply keeps_subscript_value | intros name].
  apply keeps_bind; [apply keeps_subscript | intros pt].
  apply keeps_bind; [|intros ty; apply keeps_ret].
  destruct (truthy pt); [apply keeps_subscript | apply keeps_ret].
Qed.

Lemma keeps_get_post_content_body (env : environment) (shortcode : string)
    (error_count : Z) :
  keeps I (get_post_content_body env shortcode error_count).
Proof.
  unfold get_post_content_body.
  destruct (3 <? error_count)%Z.
  { apply keeps_bind; [apply keeps_logger | intros _; apply keeps_raise]. }
  apply keeps_bind; [apply keeps_logger | intros _].
  apply keeps_try_except.
  2:{ intros e. apply keeps_bind; [apply keeps_logger | intros _; apply keeps_ret]. }
  apply keeps_bind; [apply keeps_call | intros media_pk].
  apply keeps_bind; [apply keeps_call | intros info].
  apply keeps_bind; [apply keeps_subscript | intros mt].
  cbv zeta.
  apply keeps_bind; [apply keeps_lift | intros dm].
  apply keeps_bind; [apply keeps_subscript | intros user].
  apply keeps_bind; [apply keeps_subscript_value | intros name].
  apply keeps_bind; [apply keeps_call | intros _].
  apply keeps_bind.
  - destruct dm as [strategy|].
    + apply keeps_bind; [apply keeps_call | intros _; apply keeps_ret].
    + apply keeps_bind; [apply keeps_logger | intros _; apply keeps_ret].
  - intros st. apply keeps_bind; [apply keeps_call | intros listing].
    destruct listing;
      (apply keeps_bind; [apply keeps_logger | intros _; apply keeps_response]).
Qed.

End Keeps.

(** A run of the body of [get_post_content] leaves the client's settings
    and every file as they were, whatever the outside answers. *)
Lemma get_post_content_body_same_session (env : environment)
    (shortcode : string) (error_count : Z) (w : world) :
  settings (snd (get_post_content_body env shortcode error_count w))
  = settings w /\
  files (snd (get_post_content_body env shortcode error_count w)) = files w.
Proof.
  apply (keeps_get_post_content_body same_session).
  - intros w0. split; reflexivity.
  - intros w1 w2 w3 [Hs1 Hf1] [Hs2 Hf2]. split; congruence.
  - intros l msg w0. split; reflexivity.
  - intros ev w0. split; reflexivity.
Qed.

(** ** What a return tells *)

Lemma logger_returns (l : level) (msg : string) (w w1 : world) (u : unit) :
  logger l msg w = (Ok u, w1) ->
  trace w1 = trace w /\ settings w1 = settings w /\ files w1 = files w.
Proof. unfold logger. intros [= _ <-]. repeat split. Qed.

Lemma call_returns {A} (ev : event) (answer : list event -> result A)
    (w w1 : world) (a : A) :
  call ev answer w = (Ok a, w1) ->
  answer (trace w) = Ok a /\ w1 = record ev w.
Proof. unfold call. intros [= -> <-]. split; reflexivity. Qed.

Lemma subscript_returns (d : gmap string pyval) (k : string) (w w1 : world)
    (v : pyval) :
  subscript d k w = (Ok v, w1) -> d !! k = Some v /\ w1 = w.
Proof.
  unfold subscript. destruct (d !! k); [|discriminate].
  unfold ret. intros [= -> <-]. split; reflexivity.
Qed.

Lemma subscript_value_returns (x : pyval) (k : string) (w w1 : world)
    (v : pyval) :
  subscript_value x k w = (Ok v, w1) ->
  exists d, x = PyDict d /\ d !! k = Some v /\ w1 = w.
Proof.
  destruct x; try discriminate. cbn [subscript_value]. intros H.
  apply subscript_returns in H as [H ->]. eauto.
Qed.

Lemma client_login_call_returns (env : environment) (args : login_args)
    (w w1 : world) (u : unit) :
  client_login_call env args w = (Ok u, w1) ->
  client_login env (trace w) (settings w) args = (Ok tt, settings w1) /\
  trace w1 = EvClientLogin args :: trace w /\
  files w1 = files w.
Proof.
  unfold client_login_call.
  destruct (client_login env (trace w) (settings w) args) as [r s].
  intros [= -> <-]. destruct u. repeat split.
Qed.

Lemma response_owner (shortcode : string) (info : gmap string pyval)
    (st : option string) (fallback : string) (w w' : world) (r : FetchOutcome) :
  response shortcode info st fallback w = (Ok r, w') ->
  w' = w /\
  exists u, info !! "user" = Some (PyDict u) /\ u !! "username" = Some (owner r).
Proof.
  unfold response. intros H.
  apply bind_returns in H as (user & w1 & Huser & H).
  apply bind_returns in H as (name & w2 & Hname & H).
  apply bind_returns in H as (pt & w3 & Hpt & H).
  apply bind_returns in H as (ty & w4 & Hty & H).
  unfold ret in H. injection H as <- <-.
  apply subscript_returns in Huser as [Huser ->].
  apply subscript_value_returns in Hname as (u & -> & Hname & ->).
  apply subscript_returns in Hpt as [Hpt ->].
  assert (w4 = w) as ->.
  { destruct (truthy pt).
    - now apply subscript_returns in Hty as [_ ->].
    - unfold ret in Hty. congruence. }
  split; [reflexivity|]. exists u. split; assumption.
Qed.

Lemma get_post_content_body_outcome (env : environment) (shortcode : string)
    (error_count : Z) (w w' : world) (r : FetchOutcome) :
  get_post_content_body env shortcode error_count w = (Ok r, w') ->
  post r = shortcode /\
  ((status r = "completed" /\
    exists strategy media_pk,
      trace w' =
        EvListdir (DataDir (owner r))
        :: EvDownload strategy media_pk (DataDir (owner r))
        :: EvMakedirs (DataDir (owner r)) :: EvMediaInfo media_pk
        :: EvMediaPkFromCode shortcode :: trace w /\
      download_into env
        (EvMakedirs (DataDir (owner r)) :: EvMediaInfo media_pk
         :: EvMediaPkFromCode shortcode :: trace w)
        strategy media_pk (DataDir (owner r)) = Ok tt) \/
   (status r = "not_supported" /\
    exists media_pk,
      trace w' =
        EvListdir (DataDir (owner r)) :: EvMakedirs (DataDir (owner r))
        :: EvMediaInfo media_pk :: EvMediaPkFromCode shortcode :: trace w) \/
   (status r = "source_not_found" /\
    owner r = PyStr "undefined" /\ type r = PyStr "undefined")).
Proof.
  unfold get_post_content_body.
  destruct (3 <? error_count)%Z.
  { intros H. apply bind_returns in H as (? & ? & _ & H). discriminate H. }
  intros H. apply bind_returns in H as (? & w0 & Hlog & H).
  apply logger_returns in Hlog as (Htr0 & _ & _).
  apply try_except_media_returns in H as [H | (e & w1 & _ & H)].
  - apply bind_returns in H as (pk & w1 & Hpk & H).
    apply call_returns in Hpk as [_ ->].
    apply bind_returns in H as (info & w2 & Hinfo & H).
    apply call_returns in Hinfo as [_ ->].
    apply bind_returns in H as (mt & w3 & Hmt & H).
    apply subscript_returns in Hmt as [_ ->].
    cbv zeta in H.
    apply bind_returns in H as (dm & w4 & Hdm & H).
    unfold lift in Hdm. injection Hdm as _ <-.
    apply bind_returns in H as (user & w5 & Huser & H).
    apply subscript_returns in Huser as [Huser ->].
    apply bind_returns in H as (name & w6 & Hname & H).
    apply subscript_value_returns in Hname as (u & -> & Hname & ->).
    apply bind_returns in H as (? & w7 & Hmk & H).
    apply call_returns in Hmk as [_ ->].
    apply bind_returns in H as (st & w8 & Hst & H).
    apply bind_returns in H as (listing & w9 & Hls & H).
    apply call_returns in Hls as [_ ->].
    assert (Hresp : exists fallback w10,
               trace w10 = EvListdir (DataDir name) :: trace w8 /\
               response shortcode info st fallback w10 = (Ok r, w')).
    { destruct listing;
        apply bind_returns in H as (? & w10 & Hlog & H);
        apply logger_returns in Hlog as (Htr & _ & _);
        eauto. }
    destruct Hresp as (fallback & w10 & Htr10 & Hresp).
    pose proof (response_returns _ _ _ _ _ _ _ Hresp) as (pt & _ & _ & Hstatus & Hpost).
    apply response_owner in Hresp as (-> & u' & Huser' & Hname').
    assert (Hown : owner r = name) by congruence.
    split; [exact Hpost|]. rewrite Hown, Htr10.
    destruct dm as [strategy|].
    + apply bind_returns in Hst as (udl & w11 & Hdl & Hst).
      apply call_returns in Hdl as [Hdl ->]. destruct udl.
      unfold ret in Hst. injection Hst as <- <-.
      left. split; [rewrite Hstatus; reflexivity|].
      exists strategy, pk. cbn [trace record] in *. rewrite <- Htr0.
      split; [reflexivity | exact Hdl].
    + apply bind_returns in Hst as (? & w11 & Hlog & Hst).
      apply logger_returns in Hlog as (Htr & _ & _).
      unfold ret in Hst. injection Hst as <- <-.
      right. left. split; [rewrite Hstatus; reflexivity|].
      exists pk. rewrite Htr. cbn [trace record]. rewrite <- Htr0. reflexivity.
  - apply bind_returns in H as (? & ? & _ & H).
    unfold ret in H. injection H as <- <-. cbn [post status owner type].
    split; [reflexivity|]. right. right. repeat split.
Qed.

(** X7. What a returned outcome tells about the invocation that returned it
    (after a retry, the second one): its [post] is the identifier asked for;
    a status ['completed'] says that the identifier was resolved, the
    directory of the reported owner created, one strategy run there and
    returned, and the directory listed, in that order and with nothing in
    between; ['not_supported'] says the same with no download at all; and
    ['source_not_found'] comes with owner and type ['undefined']. *)
Theorem outcome_tells_what_was_done (env : environment)
    (cfg : configuration_dict) (depth : nat) (shortcode : string)
    (error_count : Z) (w w' : world) (r : FetchOutcome) :
  get_post_content env cfg depth shortcode error_count w = (Ok r, w') ->
  post r = shortcode /\
  ((status r = "completed" /\
    exists strategy media_pk tr,
      trace w' =
        EvListdir (DataDir (owner r))
        :: EvDownload strategy media_pk (DataDir (owner r))
        :: EvMakedirs (DataDir (owner r)) :: EvMediaInfo media_pk
        :: EvMediaPkFromCode shortcode :: tr /\
      download_into env
        (EvMakedirs (DataDir (owner r)) :: EvMediaInfo media_pk
         :: EvMediaPkFromCode shortcode :: tr)
        strategy media_pk (DataDir (owner r)) = Ok tt) \/
   (status r = "not_supported" /\
    exists media_pk tr,
      trace w' =
        EvListdir (DataDir (owner r)) :: EvMakedirs (DataDir (owner r))
        :: EvMediaInfo media_pk :: EvMediaPkFromCode shortcode :: tr) \/
   (status r = "source_not_found" /\
    owner r = PyStr "undefined" /\ type r = PyStr "undefined")).
Proof.
  unfold get_post_content. intros H.
  apply exceptions_handler_returns_inv in H as [w1 H].
  apply get_post_content_body_outcome in H
    as (Hpost & [(Hs & strategy & pk & Htr & Hdl)
                | [(Hs & pk & Htr) | (Hs & Ho & Ht)]]).
  - split; [exact Hpost|]. left. split; [exact Hs|]. eauto.
  - split; [exact Hpost|]. right. left. split; [exact Hs|]. eauto.
  - split; [exact Hpost|]. right. right. auto.
Qed.

Lemma outcome_tells_what_was_done_witness :
  let run := get_post_content calm sample_configuration 1 "ABC123" 0
               fresh_world in
  run = (Ok (Outcome "ABC123" (PyStr "alice") (PyStr "photo") "completed"),
         snd run) /\
  post (Outcome "ABC123" (PyStr "alice") (PyStr "photo") "completed")
  = "ABC123".
Proof.
  intros run.
  assert (H : run = (Ok (Outcome "ABC123" (PyStr "alice") (PyStr "photo")
                           "completed"), snd run))
    by (vm_compute; reflexivity).
  split; [exact H|].
  exact (proj1 (outcome_tells_what_was_done calm sample_configuration 1
                  "ABC123" 0 fresh_world (snd run) _ H)).
Defined.

Lemma login_body_returns (env : environment) (cfg : configuration_dict)
    (method : string) (w w' : world) (v : string) :
  login_body env cfg method w = (Ok v, w') ->
  exists args tr s,
    client_login env tr s args = (Ok tt, settings w') /\
    get_timeline_feed env (tail (trace w')) = Ok tt /\
    (trace w' = EvGetTimelineFeed :: EvClientLogin args :: tr /\
     is_Some (persisted cfg w') \/
     trace w' =
       EvGetTimelineFeed :: EvDumpSettings (session_file cfg)
       :: EvClientLogin args :: tr /\
     persisted cfg w' = Some (settings w')).
Proof.
  unfold login_body. intros H.
  apply bind_returns in H as (? & w1 & Hlog & H).
  apply bind_returns in H as (args & w2 & _ & H).
  apply bind_returns in H as (? & w3 & Hbranch & H).
  apply bind_returns in H as (? & w4 & Hlog2 & H).
  apply logger_returns in Hlog2 as (Htr4 & Hs4 & Hf4).
  apply bind_returns in H as (ufeed & w5 & Hfeed & H).
  apply call_returns in Hfeed as [Hfeed ->]. destruct ufeed.
  apply bind_returns in H as (? & w6 & Hlog3 & H).
  apply logger_returns in Hlog3 as (Htr6 & Hs6 & Hf6).
  unfold ret in H. injection H as _ <-.
  cbn [trace settings files record] in *.
  assert (Hstep : exists tr s,
             client_login env tr s args = (Ok tt, settings w3) /\
             (trace w3 = EvClientLogin args :: tr /\
              is_Some (files w3 !! session_file cfg) \/
              trace w3 = EvDumpSettings (session_file cfg)
                         :: EvClientLogin args :: tr /\
              files w3 !! session_file cfg = Some (settings w3))).
  { cbv beta in Hbranch.
    destruct (String.eqb method "session"
              && os_path_exists (session_file cfg) w2) eqn:Hcond.
    - apply andb_true_iff in Hcond as [_ Hexists].
      apply bool_decide_eq_true_1 in Hexists.
      apply bind_returns in Hbranch as (? & wa & Hl & Hbranch).
      apply logger_returns in Hl as (_ & _ & Hfa).
      apply bind_returns in Hbranch as (? & wb & Hload & Hbranch).
      assert (Hfb : files wb = files wa).
      { unfold client_load_settings in Hload.
        destruct (files wa !! session_file cfg); [|discriminate].
        injection Hload as _ <-. reflexivity. }
      apply client_login_call_returns in Hbranch as (Hcl & Htr & Hf).
      eexists _, _. split; [exact Hcl|]. left. split; [exact Htr|].
      rewrite Hf, Hfb, Hfa. exact Hexists.
    - assert (Hdump : forall wa,
                 (client_login_call env args ;;
                  client_dump_settings env (session_file cfg)) wa
                 = (Ok x0, w3) ->
                 exists tr s,
                   client_login env tr s args = (Ok tt, settings w3) /\
                   trace w3 = EvDumpSettings (session_file cfg)
                              :: EvClientLogin args :: tr /\
                   files w3 !! session_file cfg = Some (settings w3)).
      { intros wa Hd.
        apply bind_returns in Hd as (? & wb & Hcl & Hd).
        apply client_login_call_returns in Hcl as (Hcl & Htr & Hf).
        unfold client_dump_settings in Hd.
        destruct (dump_settings env (trace wb) (session_file cfg));
          [|discriminate Hd].
        injection Hd as _ Hw3.
        rewrite <- Hw3. cbn [trace settings files]. eexists _, _.
        split; [exact Hcl|]. split; [now rewrite Htr|].
        apply lookup_insert_eq. }
      destruct (String.eqb method "relogin").
      + unfold relogin in Hbranch.
        apply bind_returns in Hbranch as (? & wa & _ & Hbranch).
        apply bind_returns in Hbranch as (? & wb & _ & Hbranch).
        apply bind_returns in Hbranch as (? & wc & _ & Hbranch).
        apply bind_returns in Hbranch as (? & wd & _ & Hbranch).
        apply bind_returns in Hbranch as (? & we & _ & Hbranch).
        apply Hdump in Hbranch as (tr & s & Hcl & Htr & Hf).
        exists tr, s. split; [exact Hcl|]. right. split; assumption.
      + apply bind_returns in Hbranch as (? & wa & _ & Hbranch).
        apply Hdump in Hbranch as (tr & s & Hcl & Htr & Hf).
        exists tr, s. split; [exact Hcl|]. right. split; assumption. }
  destruct Hstep as (tr & s & Hcl & Hshape).
  exists args, tr, s. unfold persisted.
  rewrite Hs6, Hf6, Htr6. cbn [trace settings files tail].
  rewrite Htr4 in Hfeed.
  rewrite Hs4, Hf4, Htr4. split; [exact Hcl|]. split; [exact Hfeed|].
  destruct Hshape as [[Htr Hf] | [Htr Hf]]; [left | right];
    rewrite Htr; split; first [reflexivity | assumption].
Qed.

(** X8. [login] returns only once it is corroborated. Whenever the decorated
    [login] returns, the last call it made is the liveness check
    [get_timeline_feed], and that check returned; right before it comes a
    credential login that returned, followed, unless an existing session
    file was resumed, by the write of the session file; the client's
    settings are the ones that credential login left; and a session file
    exists: the one resumed, or the one just written, which then holds
    exactly the client's settings. *)
Theorem login_returns_only_when_corroborated (env : environment)
    (cfg : configuration_dict) (depth : nat) (method : string)
    (w w' : world) (v : string) :
  login env cfg depth method w = (Ok v, w') ->
  exists args tr s,
    client_login env tr s args = (Ok tt, settings w') /\
    get_timeline_feed env (tail (trace w')) = Ok tt /\
    (trace w' = EvGetTimelineFeed :: EvClientLogin args :: tr /\
     is_Some (persisted cfg w') \/
     trace w' =
       EvGetTimelineFeed :: EvDumpSettings (session_file cfg)
       :: EvClientLogin args :: tr /\
     persisted cfg w' = Some (settings w')).
Proof.
  destruct depth as [|d]; cbn [login]; [discriminate|].
  intros H. apply exceptions_handler_returns_inv in H as [w1 H].
  eapply login_body_returns; eauto.
Qed.

Lemma login_returns_only_when_corroborated_witness :
  let run := login calm sample_configuration 1 "session" fresh_world in
  run = (Ok "logged_in", snd run) /\
  exists args tr s,
    client_login calm tr s args = (Ok tt, settings (snd run)) /\
    get_timeline_feed calm (tail (trace (snd run))) = Ok tt /\
    (trace (snd run) = EvGetTimelineFeed :: EvClientLogin args :: tr /\
     is_Some (persisted sample_configuration (snd run)) \/
     trace (snd run) =
       EvGetTimelineFeed :: EvDumpSettings (session_file sample_configuration)
       :: EvClientLogin args :: tr /\
     persisted sample_configuration (snd run) = Some (settings (snd run))).
Proof.
  intros run.
  assert (H : run = (Ok "logged_in", snd run)) by (vm_compute; reflexivity).
  split; [exact H|].
  exact (login_returns_only_when_corroborated calm sample_configuration 1
           "session" fresh_world (snd run) "logged_in" H).
Defined.

(** ** [get_post_content]: more paths *)

Ltac fetch_unfold :=
  unfold bind, logger, try_except_media, client_media_pk_from_code,
    client_media_info, makedirs, listdir, run_download, call, lift,
    subscript, subscript_value, ret, raise;
  cbn [trace record settings files log fst snd].

Ltac fetch_step H :=
  rewrite H; cbv beta iota zeta;
  cbn [trace record settings files log fst snd default from_option id];
  unfold subscript, ret, raise.

(** X9. A supported post whose files arrive. When the key of the metadata is
    in the table, the directory of the owner is created, the strategy of
    the entry runs once, on the key the resolution answered and into that
    directory, and a listing that is not empty follows, [get_post_content]
    returns the outcome with that owner, the label of the sub-kind and the
    status ['completed'], having issued these five calls and no other. *)
Theorem get_post_content_completed (env : environment)
    (cfg : configuration_dict) (depth : nat) (shortcode : string)
    (error_count : Z) (w : world) (media_pk : string)
    (info u : gmap string pyval) (mt pt name : pyval) (strategy : strategy)
    (first : string) (rest : list string) :
  (error_count <= 3)%Z ->
  media_pk_from_code env (trace w) shortcode = Ok media_pk ->
  media_info env (EvMediaPkFromCode shortcode :: trace w) media_pk = Ok info ->
  info !! "media_type" = Some mt ->
  info !! "product_type" = Some pt ->
  info !! "user" = Some (PyDict u) ->
  u !! "username" = Some name ->
  download_methods_get (dispatch_key mt pt) = Ok (Some strategy) ->
  os_makedirs env
    (EvMediaInfo media_pk :: EvMediaPkFromCode shortcode :: trace w)
    (DataDir name) = Ok tt ->
  download_into env
    (EvMakedirs (DataDir name) :: EvMediaInfo media_pk
     :: EvMediaPkFromCode shortcode :: trace w)
    strategy media_pk (DataDir name) = Ok tt ->
  os_listdir env
    (EvDownload strategy media_pk (DataDir name) :: EvMakedirs (DataDir name)
     :: EvMediaInfo media_pk :: EvMediaPkFromCode shortcode :: trace w)
    (DataDir name) = Ok (first :: rest) ->
  fst (get_post_content env cfg depth shortcode error_count w) =
    Ok (Outcome shortcode name (if truthy pt then pt else PyStr "photo")
          "completed") /\
  trace (snd (get_post_content env cfg depth shortcode error_count w)) =
    EvListdir (DataDir name) :: EvDownload strategy media_pk (DataDir name)
    :: EvMakedirs (DataDir name) :: EvMediaInfo media_pk
    :: EvMediaPkFromCode shortcode :: trace w.
Proof.
  intros Hec Hpk Hinfo Hmt Hpt Hu Hn Hget Hmk Hdl Hls.
  assert (Hb : (3 <? error_count)%Z = false) by (apply Z.ltb_ge; lia).
  assert (Hbody : exists w',
    get_post_content_body env shortcode error_count w =
      (Ok (Outcome shortcode name (if truthy pt then pt else PyStr "photo")
             "completed"), w') /\
    trace w' =
      EvListdir (DataDir name) :: EvDownload strategy media_pk (DataDir name)
      :: EvMakedirs (DataDir name) :: EvMediaInfo media_pk
      :: EvMediaPkFromCode shortcode :: trace w).
  { unfold get_post_content_body. rewrite Hb. fetch_unfold.
    fetch_step Hpk. fetch_step Hinfo. fetch_step Hmt. fetch_step Hpt.
    fetch_step Hget. fetch_step Hu. fetch_step Hn. fetch_step Hmk.
    fetch_step Hdl. fetch_step Hls.
    rewrite (response_with_product_type _ _ _ _ _ _ _ _ Hu Hn Hpt).
    eexists. split; reflexivity. }
  destruct Hbody as (w' & Hbody & Htr).
  unfold get_post_content.
  rewrite (exceptions_handler_returns _ _ _ _ _ Hbody).
  split; [reflexivity | exact Htr].
Qed.

Lemma get_post_content_completed_witness :
  let alice := DataDir (PyStr "alice") in
  download_methods_get (dispatch_key (PyInt 1) (PyStr "")) = Ok (Some photo_download) /\
  fst (get_post_content calm sample_configuration 1 "ABC123" 0 fresh_world) =
    Ok (Outcome "ABC123" (PyStr "alice") (PyStr "photo") "completed") /\
  trace (snd (get_post_content calm sample_configuration 1 "ABC123" 0
                fresh_world)) =
    [ EvListdir alice; EvDownload photo_download "3141592653" alice;
      EvMakedirs alice; EvMediaInfo "3141592653"; EvMediaPkFromCode "ABC123" ].
Proof.
  intros alice.
  assert (Hget : download_methods_get (dispatch_key (PyInt 1) (PyStr ""))
                 = Ok (Some photo_download)) by (vm_compute; reflexivity).
  split; [exact Hget|].
  refine (get_post_content_completed calm sample_configuration 1 "ABC123" 0
            fresh_world "3141592653" photo_info {[ "username" := PyStr "alice" ]}
            (PyInt 1) (PyStr "") (PyStr "alice") photo_download
            "3141592653.jpg" []
            _ eq_refl eq_refl _ _ _ _ Hget eq_refl eq_refl eq_refl).
  - lia.
  - vm_compute; reflexivity.
  - vm_compute; reflexivity.
  - vm_compute; reflexivity.
  - vm_compute; reflexivity.
Defined.

(** X10. A post that vanishes during the download. The [try] block covers the
    download: when the strategy raises [MediaUnavailable] or [MediaNotFound]
    after the resolution, the metadata fetch and the directory creation have
    returned, [get_post_content] still returns the outcome
    ['source_not_found'] with owner and type ['undefined'], although the
    owner was known and the directory created, and takes no listing. *)
Theorem get_post_content_vanishes_during_download (env : environment)
    (cfg : configuration_dict) (depth : nat) (shortcode : string)
    (error_count : Z) (w : world) (media_pk : string)
    (info u : gmap string pyval) (mt name : pyval) (strategy : strategy)
    (e : exn) :
  (error_count <= 3)%Z ->
  media_pk_from_code env (trace w) shortcode = Ok media_pk ->
  media_info env (EvMediaPkFromCode shortcode :: trace w) media_pk = Ok info ->
  info !! "media_type" = Some mt ->
  info !! "user" = Some (PyDict u) ->
  u !! "username" = Some name ->
  download_methods_get
    (dispatch_key mt (default PyNone (info !! "product_type")))
  = Ok (Some strategy) ->
  os_makedirs env
    (EvMediaInfo media_pk :: EvMediaPkFromCode shortcode :: trace w)
    (DataDir name) = Ok tt ->
  download_into env
    (EvMakedirs (DataDir name) :: EvMediaInfo media_pk
     :: EvMediaPkFromCode shortcode :: trace w)
    strategy media_pk (DataDir name) = Raise e ->
  e = MediaUnavailable \/ e = MediaNotFound ->
  fst (get_post_content env cfg depth shortcode error_count w) =
    Ok (Outcome shortcode (PyStr "undefined") (PyStr "undefined")
          "source_not_found") /\
  trace (snd (get_post_content env cfg depth shortcode error_count w)) =
    EvDownload strategy media_pk (DataDir name) :: EvMakedirs (DataDir name)
    :: EvMediaInfo media_pk :: EvMediaPkFromCode shortcode :: trace w.
Proof.
  intros Hec Hpk Hinfo Hmt Hu Hn Hget Hmk Hdl He.
  assert (Hb : (3 <? error_count)%Z = false) by (apply Z.ltb_ge; lia).
  assert (Hbody : exists w',
    get_post_content_body env shortcode error_count w =
      (Ok (Outcome shortcode (PyStr "undefined") (PyStr "undefined")
             "source_not_found"), w') /\
    trace w' =
      EvDownload strategy media_pk (DataDir name) :: EvMakedirs (DataDir name)
      :: EvMediaInfo media_pk :: EvMediaPkFromCode shortcode :: trace w).
  { unfold get_post_content_body. rewrite Hb. fetch_unfold.
    fetch_step Hpk. fetch_step Hinfo. fetch_step Hmt.
    fetch_step Hget. fetch_step Hu. fetch_step Hn. fetch_step Hmk.
    fetch_step Hdl.
    destruct He; subst e; eexists; split; reflexivity. }
  destruct Hbody as (w' & Hbody & Htr).
  unfold get_post_content.
  rewrite (exceptions_handler_returns _ _ _ _ _ Hbody).
  split; [reflexivity | exact Htr].
Qed.

Lemma get_post_content_vanishes_during_download_witness :
  let alice := DataDir (PyStr "alice") in
  (MediaUnavailable = MediaUnavailable \/ MediaUnavailable = MediaNotFound) /\
  fst (get_post_content vanishing_post sample_configuration 1 "ABC123" 0
         fresh_world) =
    Ok (Outcome "ABC123" (PyStr "undefined") (PyStr "undefined")
          "source_not_found") /\
  trace (snd (get_post_content vanishing_post sample_configuration 1 "ABC123"
                0 fresh_world)) =
    [ EvDownload photo_download "3141592653" alice; EvMakedirs alice;
      EvMediaInfo "3141592653"; EvMediaPkFromCode "ABC123" ].
Proof.
  intros alice.
  assert (He : MediaUnavailable = MediaUnavailable \/
               MediaUnavailable = MediaNotFound) by (left; reflexivity).
  split; [exact He|].
  refine (get_post_content_vanishes_during_download vanishing_post
            sample_configuration 1 "ABC123" 0 fresh_world "3141592653"
            photo_info {[ "username" := PyStr "alice" ]}
            (PyInt 1) (PyStr "alice") photo_download MediaUnavailable
            _ eq_refl eq_refl _ _ _ _ eq_refl eq_refl He).
  - lia.
  - vm_compute; reflexivity.
  - vm_compute; reflexivity.
  - vm_compute; reflexivity.
  - vm_compute; reflexivity.
Defined.

(** X11. Metadata without ['media_type'] or without ['user']. The subscript
    raises [KeyError] on the missing key; it is neither caught in
    [get_post_content] nor classified by the decorator, so it leaves the
    decorated call, after the resolution and the metadata fetch and before
    any directory is created or anything downloaded. *)
Theorem get_post_content_missing_key (env : environment)
    (cfg : configuration_dict) (depth : nat) (shortcode : string)
    (error_count : Z) (w : world) (media_pk : string)
    (info : gmap string pyval) (key : string) :
  (error_count <= 3)%Z ->
  media_pk_from_code env (trace w) shortcode = Ok media_pk ->
  media_info env (EvMediaPkFromCode shortcode :: trace w) media_pk = Ok info ->
  (key = "media_type" /\ info !! "media_type" = None) \/
  (key = "user" /\ info !! "user" = None /\
   exists mt found,
     info !! "media_type" = Some mt /\
     download_methods_get
       (dispatch_key mt (default PyNone (info !! "product_type")))
     = Ok found) ->
  fst (get_post_content env cfg depth shortcode error_count w) =
    Raise (KeyError key) /\
  trace (snd (get_post_content env cfg depth shortcode error_count w)) =
    EvMediaInfo media_pk :: EvMediaPkFromCode shortcode :: trace w.
Proof.
  intros Hec Hpk Hinfo Hkey.
  assert (Hb : (3 <? error_count)%Z = false) by (apply Z.ltb_ge; lia).
  assert (Hbody : exists w',
    get_post_content_body env shortcode error_count w =
      (Raise (KeyError key), w') /\
    trace w' = EvMediaInfo media_pk :: EvMediaPkFromCode shortcode :: trace w).
  { unfold get_post_content_body. rewrite Hb. fetch_unfold.
    fetch_step Hpk. fetch_step Hinfo.
    destruct Hkey as [[-> Hmt] | (-> & Hu & mt & found & Hmt & Hget)].
    - fetch_step Hmt. eexists. split; reflexivity.
    - fetch_step Hmt. fetch_step Hget. fetch_step Hu.
      eexists. split; reflexivity. }
  destruct Hbody as (w' & Hbody & Htr).
  unfold get_post_content.
  rewrite (exceptions_handler_unclassified _ _ _ _ _ Hbody eq_refl).
  split; [reflexivity | exact Htr].
Qed.

Lemma get_post_content_missing_key_witness :
  delete "user" photo_info !! "user" = None /\
  fst (get_post_content no_user sample_configuration 1 "ABC123" 0 fresh_world)
  = Raise (KeyError "user") /\
  trace (snd (get_post_content no_user sample_configuration 1 "ABC123" 0
                fresh_world)) =
    [ EvMediaInfo "3141592653"; EvMediaPkFromCode "ABC123" ].
Proof.
  assert (Hu : delete "user" photo_info !! "user" = None)
    by (vm_compute; reflexivity).
  split; [exact Hu|].
  refine (get_post_content_missing_key no_user sample_configuration 1
            "ABC123" 0 fresh_world "3141592653" (delete "user" photo_info)
            "user" _ eq_refl eq_refl _).
  - lia.
  - right. split; [reflexivity|]. split; [exact Hu|].
    exists (PyInt 1), (Some photo_download).
    split; vm_compute; reflexivity.
Defined.

(** ** The dispatch *)

(** C6. [get_post_content] dispatches as the lookup rule and the
    five-strategy table of the specification say. For every descriptor the
    resolution answers, with a kind and a sub-kind Python can hash: the
    strategy run is the one the table holds for the kind with ['any'] when
    the kind is 1 or 8, and for the kind with the sub-kind of the metadata,
    as it is, otherwise; it runs once, between the directory creation and
    the listing; and when the table holds no strategy for that key, no
    download strategy is invoked at all and the outcome has the status
    ['not_supported']. *)
Theorem dispatch_follows_the_table (env : environment)
    (cfg : configuration_dict) (depth : nat) (shortcode : string)
    (error_count : Z) (w : world) (media_pk : string)
    (info u : gmap string pyval) (mt pt name : pyval) (listing : list string) :
  (error_count <= 3)%Z ->
  media_pk_from_code env (trace w) shortcode = Ok media_pk ->
  media_info env (EvMediaPkFromCode shortcode :: trace w) media_pk = Ok info ->
  info !! "media_type" = Some mt ->
  info !! "product_type" = Some pt ->
  info !! "user" = Some (PyDict u) ->
  u !! "username" = Some name ->
  hashable mt = true ->
  hashable pt = true ->
  os_makedirs env
    (EvMediaInfo media_pk :: EvMediaPkFromCode shortcode :: trace w)
    (DataDir name) = Ok tt ->
  (forall s,
     dispatch mt pt = Some s ->
     download_into env
       (EvMakedirs (DataDir name) :: EvMediaInfo media_pk
        :: EvMediaPkFromCode shortcode :: trace w)
       s media_pk (DataDir name) = Ok tt) ->
  os_listdir env
    (after_dispatch (dispatch mt pt) media_pk (DataDir name)
       (EvMakedirs (DataDir name) :: EvMediaInfo media_pk
        :: EvMediaPkFromCode shortcode :: trace w))
    (DataDir name) = Ok listing ->
  trace (snd (get_post_content env cfg depth shortcode error_count w)) =
    EvListdir (DataDir name)
    :: after_dispatch (dispatch mt pt) media_pk (DataDir name)
         (EvMakedirs (DataDir name) :: EvMediaInfo media_pk
          :: EvMediaPkFromCode shortcode :: trace w) /\
  exists st,
    fst (get_post_content env cfg depth shortcode error_count w) =
      Ok (Outcome shortcode name (if truthy pt then pt else PyStr "photo") st) /\
    (dispatch mt pt = None -> st = "not_supported").
Proof.
  intros Hec Hpk Hinfo Hmt Hpt Hu Hn Hhm Hhp Hmk Hdl Hls.
  assert (Hb : (3 <? error_count)%Z = false) by (apply Z.ltb_ge; lia).
  pose proof (download_methods_get_dispatch mt pt Hhm Hhp) as Hget.
  assert (Hbody : exists st w',
    get_post_content_body env shortcode error_count w =
      (Ok (Outcome shortcode name (if truthy pt then pt else PyStr "photo") st),
       w') /\
    trace w' =
      EvListdir (DataDir name)
      :: after_dispatch (dispatch mt pt) media_pk (DataDir name)
           (EvMakedirs (DataDir name) :: EvMediaInfo media_pk
            :: EvMediaPkFromCode shortcode :: trace w) /\
    (dispatch mt pt = None -> st = "not_supported")).
  { unfold get_post_content_body. rewrite Hb. fetch_unfold.
    fetch_step Hpk. fetch_step Hinfo. fetch_step Hmt. fetch_step Hpt.
    fetch_step Hget. fetch_step Hu. fetch_step Hn. fetch_step Hmk.
    revert Hdl Hls.
    destruct (dispatch mt pt) as [s|]; intros Hdl Hls;
      cbn [after_dispatch] in Hls |- *; cbv beta iota;
      cbn [trace record settings files log fst snd].
    - pose proof (Hdl s eq_refl) as Hs.
      fetch_step Hs. fetch_step Hls.
      destruct listing;
        rewrite (response_with_product_type _ _ _ _ _ _ _ _ Hu Hn Hpt);
        eexists _, _; (split; [reflexivity|]);
        (split; [reflexivity | intros Hx; discriminate Hx]).
    - fetch_step Hls.
      destruct listing;
        rewrite (response_with_product_type _ _ _ _ _ _ _ _ Hu Hn Hpt);
        eexists _, _; (split; [reflexivity|]);
        (split; [reflexivity | intros _; reflexivity]). }
  destruct Hbody as (st & w' & Hbody & Htr & Hst).
  unfold get_post_content.
  rewrite (exceptions_handler_returns _ _ _ _ _ Hbody). cbn [fst snd].
  split; [exact Htr|]. exists st. split; [reflexivity | exact Hst].
Qed.

Lemma dispatch_follows_the_table_witness :
  let alice := DataDir (PyStr "alice") in
  hashable (PyInt 1) = true /\
  hashable (PyStr "feed") = true /\
  dispatch (PyInt 1) (PyStr "feed") = Some photo_download /\
  trace (snd (get_post_content feed_photo sample_configuration 1 "ABC123" 0
                fresh_world)) =
    EvListdir alice
    :: after_dispatch (Some photo_download) "3141592653" alice
         [ EvMakedirs alice; EvMediaInfo "3141592653";
           EvMediaPkFromCode "ABC123" ].
Proof.
  intros alice.
  assert (Hd : dispatch (PyInt 1) (PyStr "feed") = Some photo_download)
    by (vm_compute; reflexivity).
  split; [reflexivity|]. split; [reflexivity|]. split; [exact Hd|].
  rewrite <- Hd.
  refine (proj1
    (dispatch_follows_the_table feed_photo sample_configuration 1 "ABC123" 0
       fresh_world "3141592653" feed_photo_info
       {[ "username" := PyStr "alice" ]}
       (PyInt 1) (PyStr "feed") (PyStr "alice") ["3141592653.jpg"]
       _ eq_refl eq_refl _ _ _ _ eq_refl eq_refl eq_refl
       (fun _ _ => eq_refl) eq_refl)).
  - lia.
  - vm_compute; reflexivity.
  - vm_compute; reflexivity.
  - vm_compute; reflexivity.
  - vm_compute; reflexivity.
Defined.

(** ** The label of the outcome *)

Lemma get_post_content_body_type (env : environment) (shortcode : string)
    (error_count : Z) (w w' : world) (r : FetchOutcome) :
  get_post_content_body env shortcode error_count w = (Ok r, w') ->
  status r = "source_not_found" \/
  exists media_pk info pt,
    media_info env (EvMediaPkFromCode shortcode :: trace w) media_pk = Ok info /\
    info !! "product_type" = Some pt /\
    type r = (if truthy pt then pt else PyStr "photo").
Proof.
  unfold get_post_content_body.
  destruct (3 <? error_count)%Z.
  { intros H. apply bind_returns in H as (? & ? & _ & H). discriminate H. }
  intros H. apply bind_returns in H as (? & w0 & Hlog & H).
  apply logger_returns in Hlog as (Htr0 & _ & _).
  apply try_except_media_returns in H as [H | (e & w1 & _ & H)].
  - right.
    apply bind_returns in H as (pk & w1 & Hpk & H).
    apply call_returns in Hpk as [_ ->].
    apply bind_returns in H as (info & w2 & Hinfo & H).
    apply call_returns in Hinfo as [Hinfo ->].
    cbn [trace record] in Hinfo. rewrite Htr0 in Hinfo.
    apply bind_returns in H as (mt & w3 & _ & H).
    cbv zeta in H.
    apply bind_returns in H as (dm & w4 & _ & H).
    apply bind_returns in H as (user & w5 & _ & H).
    apply bind_returns in H as (name & w6 & _ & H).
    apply bind_returns in H as (? & w7 & _ & H).
    apply bind_returns in H as (st & w8 & _ & H).
    apply bind_returns in H as (listing & w9 & _ & H).
    exists pk, info.
    destruct listing;
      apply bind_returns in H as (? & w10 & _ & H);
      apply response_returns in H as (pt & Hpt & Hty & _ & _);
      exists pt; repeat split; assumption.
  - left. apply bind_returns in H as (? & ? & _ & H).
    unfold ret in H. injection H as <- <-. reflexivity.
Qed.

(** The sub-types that count as none: [None] and the empty string. *)
Lemma truthy_no_subtype : truthy PyNone = false /\ truthy (PyStr "") = false.
Proof. split; reflexivity. Qed.

Lemma truthy_subtype (s : string) : s <> "" -> truthy (PyStr s) = true.
Proof.
  intros Hs. cbn [truthy]. apply negb_true_iff. now apply String.eqb_neq.
Qed.

(** C9. Every outcome [get_post_content] returns on the path that is not
    the short circuit (its status is not ['source_not_found']) was built
    from the metadata fetched in the invocation that returned it; that
    metadata has the entry ['product_type'], and the [type] of the outcome
    is that sub-type when it is one (not [None], not empty) and the label
    ['photo'] when it is [None] or empty. No outcome is returned from
    metadata without the entry. *)
Theorem outcome_type_label (env : environment) (cfg : configuration_dict)
    (depth : nat) (shortcode : string) (error_count : Z) (w w' : world)
    (r : FetchOutcome) :
  get_post_content env cfg depth shortcode error_count w = (Ok r, w') ->
  status r <> "source_not_found" ->
  exists media_pk tr info pt,
    media_info env (EvMediaPkFromCode shortcode :: tr) media_pk = Ok info /\
    info !! "product_type" = Some pt /\
    type r = (if truthy pt then pt else PyStr "photo").
Proof.
  unfold get_post_content. intros H Hs.
  apply exceptions_handler_returns_inv in H as [w1 H].
  apply get_post_content_body_type in H as [H | (pk & info & pt & H)].
  - contradiction.
  - exists pk, (trace w1), info, pt. exact H.
Qed.

Lemma outcome_type_label_witness :
  let run := get_post_content calm sample_configuration 1 "ABC123" 0
               fresh_world in
  let r := Outcome "ABC123" (PyStr "alice") (PyStr "photo") "completed" in
  run = (Ok r, snd run) /\
  status r <> "source_not_found" /\
  exists media_pk tr info pt,
    media_info calm (EvMediaPkFromCode "ABC123" :: tr) media_pk = Ok info /\
    info !! "product_type" = Some pt /\
    type r = (if truthy pt then pt else PyStr "photo").
Proof.
  intros run r.
  assert (H : run = (Ok r, snd run)) by (vm_compute; reflexivity).
  assert (Hs : status r <> "source_not_found")
    by (intros Hx; vm_compute in Hx; discriminate Hx).
  split; [exact H|]. split; [exact Hs|].
  exact (outcome_type_label calm sample_configuration 1 "ABC123" 0 fresh_world
           (snd run) r H Hs).
Defined.

(** A post filed under a sub-type is labelled with it. *)
Example feed_photo_labelled_feed :
  fst (get_post_content feed_photo sample_configuration 1 "ABC123" 0
         fresh_world) =
  Ok (Outcome "ABC123" (PyStr "alice") (PyStr "feed") "completed").
Proof. vm_compute. reflexivity. Qed.

(** ** [login]: the three modes *)

Ltac login_unfold :=
  unfold relogin, bind, logger, client_get_settings, client_set_settings,
    client_set_uuids, client_login_call, client_dump_settings,
    client_load_settings, client_get_timeline_feed, call, subscript, ret, raise;
  cbn [trace record settings files log fst snd].

Ltac login_step H :=
  rewrite H; cbv beta iota;
  cbn [trace record settings files log fst snd].

Ltac login_start env cfg w l' Hargs :=
  unfold login_body; unfold bind at 1; unfold logger at 1;
  let Hb := fresh "Hb" in
  destruct (build_login_args_frame env cfg w
              ((INFO, "[Downloader]: Authentication in the Instagram API with type: %s")
               :: log w)) as [l' Hb];
  unfold bind at 1; rewrite Hb, Hargs; clear Hb;
  unfold bind at 1.

(** X12. A renewal that is refused. When the credential login of [login] in
    renew mode raises an exception outside the classification, that
    exception leaves the decorated [login]; nothing is written, so the
    session file holds what it held; but the client's settings were reset
    before the login and are not put back: they are what the failed login
    left of the device identity alone. *)
Theorem login_renew_refused (env : environment) (cfg : configuration_dict)
    (d : nat) (w : world) (u : pyval) (args : login_args) (e : exn)
    (s' : gmap string pyval) :
  settings w !! "uuids" = Some u ->
  fst (build_login_args env cfg w) = Ok args ->
  client_login env
    (relogin_trace u (trace (snd (build_login_args env cfg w))))
    {[ "uuids" := u ]} args = (Raise e, s') ->
  classify e = KUnclassified ->
  fst (login env cfg (S d) renew w) = Raise e /\
  files (snd (login env cfg (S d) renew w)) = files w /\
  settings (snd (login env cfg (S d) renew w)) = s' /\
  trace (snd (login env cfg (S d) renew w)) =
    EvClientLogin args
    :: relogin_trace u (trace (snd (build_login_args env cfg w))).
Proof.
  intros Hu Hargs Hlogin He.
  assert (Hbody : exists l,
    login_body env cfg renew w =
    (Raise e,
     World s' (files w)
       (EvClientLogin args
        :: relogin_trace u (trace (snd (build_login_args env cfg w)))) l)).
  { login_start env cfg w l' Hargs.
    unfold renew. cbn [String.eqb Ascii.eqb Bool.eqb andb].
    login_unfold. login_step Hu.
    unfold relogin_trace in Hlogin.
    change (<["uuids" := u]> (∅ : gmap string pyval)) with
      ({[ "uuids" := u ]} : gmap string pyval).
    login_step Hlogin. eexists. reflexivity. }
  destruct Hbody as [l Hbody]. cbn [login].
  rewrite (exceptions_handler_unclassified _ _ _ _ _ Hbody He).
  repeat split.
Qed.

Lemma login_renew_refused_witness :
  settings logged_in_world !! "uuids" = Some device /\
  fst (login (login_refused LoginRequired) sample_configuration 1 renew
         logged_in_world) = Raise (OtherError "BadPassword") /\
  files (snd (login (login_refused LoginRequired) sample_configuration 1 renew
                logged_in_world)) = files logged_in_world /\
  settings (snd (login (login_refused LoginRequired) sample_configuration 1
                   renew logged_in_world)) = {[ "uuids" := device ]}.
Proof.
  assert (Hu : settings logged_in_world !! "uuids" = Some device)
    by (vm_compute; reflexivity).
  split; [exact Hu|].
  pose proof (login_renew_refused (login_refused LoginRequired)
                sample_configuration 0 logged_in_world device
                (LoginArgs "my_username" "my_password" None)
                (OtherError "BadPassword") {[ "uuids" := device ]}
                Hu eq_refl eq_refl eq_refl) as H.
  split; [exact (proj1 H)|].
  split; [exact (proj1 (proj2 H)) | exact (proj1 (proj2 (proj2 H)))].
Defined.



(** X14. A fresh login. With the default method and no session file, or with
    any method that is neither ['session'] nor ['relogin'], the credential
    login is made on the settings the client has, nothing being loaded or
    reset; when that login, the write of the session file and the liveness
    check return, the settings the login left are in the session file, over
    the one that may have been there, and [login] returns. *)
Theorem login_fresh (env : environment) (cfg : configuration_dict)
    (d : nat) (method : string) (w : world) (s' : gmap string pyval)
    (args : login_args) :
  (method = "session" /\ files w !! session_file cfg = None) \/
  (method <> "session" /\ method <> "relogin") ->
  fst (build_login_args env cfg w) = Ok args ->
  client_login env (trace (snd (build_login_args env cfg w))) (settings w) args
  = (Ok tt, s') ->
  dump_settings env
    (EvClientLogin args :: trace (snd (build_login_args env cfg w)))
    (session_file cfg) = Ok tt ->
  get_timeline_feed env
    (EvDumpSettings (session_file cfg) :: EvClientLogin args
     :: trace (snd (build_login_args env cfg w))) = Ok tt ->
  fst (login env cfg (S d) method w) = Ok "logged_in" /\
  settings (snd (login env cfg (S d) method w)) = s' /\
  files (snd (login env cfg (S d) method w))
  = <[session_file cfg := s']> (files w) /\
  trace (snd (login env cfg (S d) method w)) =
    EvGetTimelineFeed :: EvDumpSettings (session_file cfg)
    :: EvClientLogin args :: trace (snd (build_login_args env cfg w)).
Proof.
  intros Hmode Hargs Hlogin Hdump Hfeed.
  assert (Hbody : exists l,
    login_body env cfg method w =
    (Ok "logged_in",
     World s' (<[session_file cfg := s']> (files w))
       (EvGetTimelineFeed :: EvDumpSettings (session_file cfg)
        :: EvClientLogin args :: trace (snd (build_login_args env cfg w))) l)).
  { login_start env cfg w l' Hargs.
    assert (Hcond : String.eqb method "session"
                    && os_path_exists (session_file cfg)
                         (World (settings w) (files w)
                            (trace (snd (build_login_args env cfg w))) l')
                    = false).
    { destruct Hmode as [[-> Hnone] | [Hs _]].
      - unfold os_path_exists. cbn [files]. rewrite Hnone.
        rewrite bool_decide_eq_false_2 by (intros [? ?]; discriminate).
        reflexivity.
      - apply String.eqb_neq in Hs. now rewrite Hs. }
    rewrite Hcond.
    assert (Hrel : String.eqb method "relogin" = false).
    { destruct Hmode as [[-> _] | [_ Hr]]; [reflexivity|].
      now apply String.eqb_neq. }
    rewrite Hrel. login_unfold. login_step Hlogin. login_step Hdump.
    login_step Hfeed. eexists. reflexivity. }
  destruct Hbody as [l Hbody]. cbn [login].
  rewrite (exceptions_handler_returns _ _ _ _ _ Hbody).
  repeat split.
Qed.

Lemma login_fresh_witness :
  let token := <["authorization_data" := PyStr "token"]> {[ "uuids" := device ]} in
  files fresh_world !! session_file sample_configuration = None /\
  fst (login calm sample_configuration 1 "session" fresh_world)
  = Ok "logged_in" /\
  files (snd (login calm sample_configuration 1 "session" fresh_world))
  = <[session_file sample_configuration := token]> (files fresh_world).
Proof.
  intros token.
  assert (Hf : files fresh_world !! session_file sample_configuration = None)
    by (vm_compute; reflexivity).
  split; [exact Hf|].
  pose proof (login_fresh calm sample_configuration 0 "session" fresh_world
                token (LoginArgs "my_username" "my_password" None)
                (or_introl (conj eq_refl Hf)) eq_refl) as H.
  assert (Hl : client_login calm
                 (trace (snd (build_login_args calm sample_configuration
                                fresh_world)))
                 (settings fresh_world)
                 (LoginArgs "my_username" "my_password" None)
               = (Ok tt, token)) by (vm_compute; reflexivity).
  specialize (H Hl eq_refl eq_refl).
  split; [exact (proj1 H) | exact (proj1 (proj2 (proj2 H)))].
Defined.

(** While the session file cannot be written, the fresh login raises after
    the credential login, and the liveness check is not made. *)
Example login_write_refused :
  let run := login read_only_store sample_configuration 1 "session"
               fresh_world in
  fst run = Raise (OtherError "PermissionError") /\
  trace (snd run) =
    [ EvDumpSettings "data/session.json";
      EvClientLogin (LoginArgs "my_username" "my_password" None) ].
Proof. vm_compute. split; reflexivity. Qed.

(** ** The constructor: what it calls *)

(** Reading the configuration from the vault and going on is going on
    with that configuration passed, one call later. *)
Lemma constructor_from_vault (env : environment) (depth : nat)
    (c : configuration_dict) (w : world) :
  read_secret env (trace w) "configuration/downloader-api" = Ok c ->
  __init__ env depth None true w =
  __init__ env depth (Some c) true
    (record (EvReadSecret "configuration/downloader-api") w).
Proof.
  intros Hread. unfold __init__. cbn [negb].
  unfold bind at 1. unfold call. rewrite Hread.
  unfold bind at 4. unfold ret at 2. reflexivity.
Qed.

Lemma constructor_with_configuration (env : environment) (depth : nat)
    (c : configuration_dict) (w : world) :
  exists new,
    trace (snd (__init__ env depth (Some c) true w)) =
      (new ++ constructor_trace (trace w))%list /\
    Forall (fun ev => login_event c ev = true) new /\
    match fst (__init__ env depth (Some c) true w) with
    | Ok c' => c' = c
    | Raise _ => True
    end.
Proof.
  assert (Hauth : forall w0,
    exists new,
      trace (snd ((authenticate env c depth ;; ret c) w0))
      = (new ++ trace w0)%list /\
      Forall (fun ev => login_event c ev = true) new /\
      match fst ((authenticate env c depth ;; ret c) w0) with
      | Ok c' => c' = c
      | Raise _ => True
      end).
  { intros w0. unfold authenticate, bind.
    destruct (adds_allowed _ _ _ _ w0
                (login_adds env c no_weight 0 0
                   ltac:(intros ev _; unfold no_weight; lia)
                   ltac:(unfold no_weight; lia)
                   ltac:(unfold no_weight; lia) depth "session"))
      as (new & Htr & Hall).
    exists new.
    destruct (login env c depth "session" w0) as [[v|e] w1];
      cbn [snd fst] in *; [|auto].
    destruct (String.eqb v "logged_in"); cbn; auto. }
  destruct (Hauth
              (snd ((logger INFO "[Downloader]: Creating a new instance..." ;;
                     new_Client env ;;
                     logger INFO "[Downloader]: Configuring client settings..." ;;
                     configure "delay_range" ;;
                     configure "request_timeout" ;;
                     configure "locale" ;;
                     configure "country_code" ;;
                     configure "timezone_offset" ;;
                     configure "user_agent" ;;
                     configure "proxy" ;;
                     client_get_settings ;;
                     logger INFO "[Downloader]: Client settings: %s") w)))
    as (new & Htr & Hall & Hres).
  exists new. split; [exact Htr|]. split; [exact Hall | exact Hres].
Qed.

(** X15. What a constructor that returned has done. Whenever the
    constructor, given a vault, returns, what it keeps as
    [self.configuration] is the configuration passed, or, none being
    passed, the one the vault answered; and the calls it made are, in this
    order: the read of the vault, exactly when no configuration was passed;
    the creation of one client; the seven setters; the read of the client's
    settings; and then calls of [login] with that configuration and no
    other. *)
Theorem constructor_calls (env : environment) (depth : nat)
    (configuration : option configuration_dict) (c : configuration_dict)
    (w w' : world) :
  __init__ env depth configuration true w = (Ok c, w') ->
  (configuration = Some c \/
   (configuration = None /\
    read_secret env (trace w) "configuration/downloader-api" = Ok c)) /\
  exists new,
    trace w' =
      (new ++
       constructor_trace
         match configuration with
         | Some _ => trace w
         | None => EvReadSecret "configuration/downloader-api" :: trace w
         end)%list /\
    Forall (fun ev => login_event c ev = true) new.
Proof.
  intros Hinit. destruct configuration as [c0|].
  - destruct (constructor_with_configuration env depth c0 w)
      as (new & Htr & Hall & Hres).
    rewrite Hinit in Htr, Hres. cbn [fst snd] in Htr, Hres. subst c0.
    split; [left; reflexivity|]. exists new. split; [exact Htr | exact Hall].
  - destruct (read_secret env (trace w) "configuration/downloader-api")
      as [c0|e] eqn:Hread.
    + rewrite (constructor_from_vault env depth c0 w Hread) in Hinit.
      destruct (constructor_with_configuration env depth c0
                  (record (EvReadSecret "configuration/downloader-api") w))
        as (new & Htr & Hall & Hres).
      rewrite Hinit in Htr, Hres. cbn [fst snd] in Htr, Hres. subst c0.
      split; [right; split; reflexivity|]. exists new.
      split; [exact Htr | exact Hall].
    + unfold __init__ in Hinit. cbn [negb] in Hinit.
      unfold bind at 1 in Hinit. unfold call in Hinit.
      rewrite Hread in Hinit. discriminate Hinit.
Qed.

Lemma constructor_calls_witness :
  let run := __init__ calm 1 None true fresh_world in
  run = (Ok sample_configuration, snd run) /\
  read_secret calm (trace fresh_world) "configuration/downloader-api"
  = Ok sample_configuration /\
  exists new,
    trace (snd run) =
      (new ++
       constructor_trace
         (EvReadSecret "configuration/downloader-api" :: trace fresh_world))%list /\
    Forall (fun ev => login_event sample_configuration ev = true) new.
Proof.
  intros run.
  assert (H : run = (Ok sample_configuration, snd run))
    by (vm_compute; reflexivity).
  split; [exact H|]. split; [reflexivity|].
  exact (proj2 (constructor_calls calm 1 None sample_configuration fresh_world
                  (snd run) H)).
Defined.

(** X16. Where the constructor takes its configuration. Without a vault it
    raises [WrongVaultInstance] before any call, also when a configuration
    is passed. With a vault and no configuration, the first call is the
    read of the vault: when that read raises, its exception leaves the
    constructor, no client being created and no login attempted; when it
    answers, the constructor goes on exactly as if the answer had been
    passed as the configuration. *)
Theorem constructor_fails_early (env : environment) (depth : nat)
    (configuration : option configuration_dict) (w : world) :
  __init__ env depth configuration false w = (Raise WrongVaultInstance, w) /\
  __init__ env depth None true w =
    match read_secret env (trace w) "configuration/downloader-api" with
    | Ok c =>
        __init__ env depth (Some c) true
          (record (EvReadSecret "configuration/downloader-api") w)
    | Raise e =>
        (Raise e, record (EvReadSecret "configuration/downloader-api") w)
    end.
Proof.
  split; [reflexivity|].
  destruct (read_secret env (trace w) "configuration/downloader-api")
    as [c|e] eqn:Hread.
  - now apply constructor_from_vault.
  - unfold __init__. cbn [negb]. unfold bind at 1. unfold call.
    rewrite Hread. reflexivity.
Qed.

(** With a vault that cannot be read, the constructor ends at the read. *)
Example constructor_sealed_vault :
  __init__ sealed_vault 1 None true fresh_world =
    (Raise (OtherError "VaultError"),
     record (EvReadSecret "configuration/downloader-api") fresh_world).
Proof. reflexivity. Qed.

(** ** Fetching and the session *)

(** X6. Resolving, fetching metadata, creating the directory, downloading and
    listing never touch the session: a call of the decorated
    [get_post_content] whose first invocation returns, or raises an
    exception outside the classification, leaves the client's settings and
    every file as they were. Only the recovery of a classified failure,
    through [login], can change them. *)
Theorem get_post_content_same_session (env : environment)
    (cfg : configuration_dict) (depth : nat) (shortcode : string)
    (error_count : Z) (w : world) :
  match fst (get_post_content_body env shortcode error_count w) with
  | Ok _ => True
  | Raise e => classify e = KUnclassified
  end ->
  settings (snd (get_post_content env cfg depth shortcode error_count w))
  = settings w /\
  files (snd (get_post_content env cfg depth shortcode error_count w))
  = files w.
Proof.
  intros Hfirst.
  pose proof (get_post_content_body_same_session env shortcode error_count w)
    as Hbody.
  unfold get_post_content.
  destruct (get_post_content_body env shortcode error_count w)
    as [[r|e] w1] eqn:H; cbn [fst snd] in *.
  - now rewrite (exceptions_handler_returns _ _ _ _ _ H).
  - now rewrite (exceptions_handler_unclassified _ _ _ _ _ H Hfirst).
Qed.

Lemma get_post_content_same_session_witness :
  match fst (get_post_content_body calm "ABC123" 0 logged_in_world) with
  | Ok _ => True
  | Raise e => classify e = KUnclassified
  end /\
  settings (snd (get_post_content calm sample_configuration 1 "ABC123" 0
                   logged_in_world)) = settings logged_in_world /\
  files (snd (get_post_content calm sample_configuration 1 "ABC123" 0
                logged_in_world)) = files logged_in_world.
Proof.
  assert (H : match fst (get_post_content_body calm "ABC123" 0 logged_in_world)
              with
              | Ok _ => True
              | Raise e => classify e = KUnclassified
              end) by exact I.
  split; [exact H|].
  exact (get_post_content_same_session calm sample_configuration 1 "ABC123" 0
           logged_in_world H).
Defined.
